(** * WarBlog: the link manager and the publish flow of the plugin

    A shallow embedding of [main.ts] (the plugin class [WarBlog], its
    [PasswordModal] and the schema [BlogSchema]) and the properties of
    its specification that are stated about it.

    The plugin is glue around four collaborators: Node's [fs] and [path]
    modules, the Obsidian host (vault adapter, notices, modal), the
    [simple-git] client and the [zod] / [gray-matter] libraries.  Every
    effect the plugin has on them is recorded in an explicit [World];
    every answer they give is read from it or from the [Host] class. *)

From Stdlib Require Import ZArith Ascii String List Bool Lia.
From stdpp Require Import base option list strings gmap fin_maps.

Local Open Scope string_scope.
Local Open Scope list_scope.

(** ** JavaScript values and errors *)

Module JS.

#[local] Set Warnings "-register-all".

(** The values js-yaml can put into front matter.  Numbers are the
    integer-valued ones; [JDate None] is the Invalid Date. *)
Inductive jsval :=
| JUndefined
| JNull
| JBool (b : bool)
| JNum (n : Z)
| JStr (s : string)
| JDate (time : option Z)
| JArr (items : list jsval)
| JObj (fields : list (string * jsval)).

(** [obj[key]]: the first field of that name, [undefined] otherwise. *)
Fixpoint js_get (key : string) (fields : list (string * jsval)) : jsval :=
  match fields with
  | [] => JUndefined
  | (k, v) :: rest => if String.eqb k key then v else js_get key rest
  end.

(** zod's [getParsedType]. *)
Inductive ZodParsedType :=
| pt_undefined | pt_null | pt_boolean | pt_number | pt_string
| pt_date | pt_array | pt_object.

Definition getParsedType (v : jsval) : ZodParsedType :=
  match v with
  | JUndefined => pt_undefined
  | JNull => pt_null
  | JBool _ => pt_boolean
  | JNum _ => pt_number
  | JStr _ => pt_string
  | JDate _ => pt_date
  | JArr _ => pt_array
  | JObj _ => pt_object
  end.

Inductive IssueCode :=
| invalid_type (expected received : ZodParsedType)
| invalid_date.

Record ZodIssue := mkIssue {
  code : IssueCode;
  path : list string;
  message : string;
}.

(** What a [throw] carries: a [ZodError] with its issues, or any other
    [Error] with its message (for [fs] it is the error code). *)
Inductive exn :=
| ZodError (issues : list ZodIssue)
| Error (msg : string).

End JS.
Export JS.

(** ** The libraries the plugin calls but does not contain *)

Class Host := {
  (** [path.join] of Node *)
  path_join : string -> string -> string;
  (** [matter(content).data] of gray-matter, the first time it is given
      [content]; [inl] is a thrown message.  gray-matter remembers the texts
      it has been given, also one it could not parse: what a later call on
      the same text answers is not described here. *)
  matter : string -> string + jsval;
  (** whether [new Date(v)] is a valid date, for the values whose
      conversion goes through the engine's date parser *)
  Date_parse_valid : jsval -> bool;
  (** zod's error map: the message of an issue *)
  errorMap : IssueCode -> string;
  (** [.message] of a [ZodError] *)
  ZodError_message : list ZodIssue -> string;
}.

(** ** The world the plugin acts on *)

Module Obsidian.

Record Settings := mkSettings {
  astroRoot : string;
  contentFolder : string;
  symlinkName : string;
  password : string;
}.

Definition DEFAULT_SETTINGS : Settings :=
  {| astroRoot := EmptyString;
     contentFolder := "src/content/blog";
     symlinkName := "Blog";
     password := EmptyString |}.

(** [this.app.vault.adapter] *)
Inductive Adapter :=
| FileSystemAdapter (basePath : string)
| OtherAdapter.

Record TFile := mkTFile {
  file_path : string;
  file_name : string;
}.

(** [new Notice(message, duration?)] *)
Record Notice := mkNotice {
  notice_text : string;
  notice_duration : option Z;
}.

End Obsidian.
Export Obsidian.

Module Git.

(** The fields of simple-git's [StatusResult] the plugin reads. *)
Record StatusResult := mkStatus {
  modified : list string;
  created : list string;
  deleted : list string;
}.

(** The repository as an opaque collaborator: what each call answers
    ([inl] is the message of the error it throws). *)
Record SimpleGit := mkGit {
  add_answer : string -> string + unit;
  status_answer : string + StatusResult;
  commit_answer : string -> string + unit;
  push_answer : string + unit;
}.

(** The calls issued to the client, in order. *)
Inductive GitCall :=
| GitAdd (pathspec : string)
| GitStatus
| GitCommit (msg : string) (files : option (list string))
            (options : list (string * option string))
| GitPush.

End Git.
Export Git.

Module Fs.

(** The file system as the link manager sees it: one entry per path name,
    a symbolic link keeping the string it was made with.  Path names are
    opaque; the parent directory of a name is not looked at. *)
Inductive node :=
| File
| Dir
| Symlink (target : string).

Definition is_symlink (n : node) : bool :=
  match n with Symlink _ => true | _ => false end.

(** The number of links a path resolution follows before [ELOOP]. *)
Definition hop_limit : nat := 40.

(** Whether [p] resolves to an entry, following links.  The string a link
    was made with is followed as a path name of its own: this is the
    resolution of Node for links made with absolute names, the ones
    [setupSymlink] makes from an absolute project root. *)
Fixpoint resolves (hops : nat) (fs : gmap string node) (p : string) : bool :=
  match fs !! p with
  | None => false
  | Some (Symlink t) =>
      match hops with
      | O => false
      | S hops' => resolves hops' fs t
      end
  | Some _ => true
  end.

Record Stats := mkStats {
  isSymbolicLink : bool;
  isDirectory : bool;
  isFile : bool;
}.

Definition stats_of (n : node) : Stats :=
  match n with
  | File => mkStats false false true
  | Dir => mkStats false true false
  | Symlink _ => mkStats true false false
  end.

End Fs.
Export Fs.

Record World := mkWorld {
  settings : Settings;
  adapter : Adapter;
  (** [adapter.read(path)]: the text, or the message of the error *)
  vault_read : string -> string + string;
  (** [vault.getMarkdownFiles()] *)
  markdownFiles : list TFile;
  (** [this.git], unset until a project root is configured *)
  git : option SimpleGit;
  (** [new Date().toLocaleString()] *)
  clock : string;
  fs : gmap string node;
  notices : list Notice;
  console : list exn;
  git_calls : list GitCall;
  modal_open : bool;
}.

Definition with_settings (s : Settings) (w : World) : World :=
  mkWorld s (adapter w) (vault_read w) (markdownFiles w) (git w)
          (clock w) (fs w) (notices w) (console w) (git_calls w) (modal_open w).

Definition with_fs (f : gmap string node) (w : World) : World :=
  mkWorld (settings w) (adapter w) (vault_read w) (markdownFiles w) (git w)
          (clock w) f (notices w) (console w) (git_calls w) (modal_open w).

Definition with_notices (ns : list Notice) (w : World) : World :=
  mkWorld (settings w) (adapter w) (vault_read w) (markdownFiles w) (git w)
          (clock w) (fs w) ns (console w) (git_calls w) (modal_open w).

Definition with_console (c : list exn) (w : World) : World :=
  mkWorld (settings w) (adapter w) (vault_read w) (markdownFiles w) (git w)
          (clock w) (fs w) (notices w) c (git_calls w) (modal_open w).

Definition with_git_calls (cs : list GitCall) (w : World) : World :=
  mkWorld (settings w) (adapter w) (vault_read w) (markdownFiles w) (git w)
          (clock w) (fs w) (notices w) (console w) cs (modal_open w).

Definition with_modal_open (b : bool) (w : World) : World :=
  mkWorld (settings w) (adapter w) (vault_read w) (markdownFiles w) (git w)
          (clock w) (fs w) (notices w) (console w) (git_calls w) b.

(** ** Computations: state passing with exceptions

    An [async] method is run to completion; [await] is sequencing. *)

Inductive outcome (A : Type) :=
| Returned (a : A)
| Thrown (e : exn).
Arguments Returned {A} a.
Arguments Thrown {A} e.

Definition Async (A : Type) : Type := World -> outcome A * World.

Definition ret {A} (a : A) : Async A := fun w => (Returned a, w).

Definition throw {A} (e : exn) : Async A := fun w => (Thrown e, w).

Definition bind {A B} (m : Async A) (k : A -> Async B) : Async B :=
  fun w =>
    match m w with
    | (Returned a, w') => k a w'
    | (Thrown e, w') => (Thrown e, w')
    end.

(** [try { m } catch (err) { h err }]: what [m] did before it threw stays. *)
Definition try_catch {A} (m : Async A) (h : exn -> Async A) : Async A :=
  fun w =>
    match m w with
    | (Returned a, w') => (Returned a, w')
    | (Thrown e, w') => h e w'
    end.

Declare Scope async_scope.
Delimit Scope async_scope with async.
Notation "x <- m ;; k" := (bind m (fun x => k))
  (at level 100, m at next level, right associativity) : async_scope.
Notation "m ;; k" := (bind m (fun _ => k))
  (at level 100, right associativity) : async_scope.
Local Open Scope async_scope.

(** A library answer becomes a value or a thrown [Error]. *)
Definition answer {A} (r : string + A) : Async A :=
  match r with
  | inl msg => throw (Error msg)
  | inr a => ret a
  end.

Definition get {A} (f : World -> A) : Async A := fun w => (Returned (f w), w).

Definition new_Notice (text : string) (duration : option Z) : Async unit :=
  fun w => (Returned tt, with_notices (notices w ++ [mkNotice text duration]) w).

Definition console_error (e : exn) : Async unit :=
  fun w => (Returned tt, with_console (console w ++ [e]) w).

(** *** Node's [fs] *)

(** [fs.existsSync] follows symbolic links: a link whose target is gone
    does not exist for it.  [lstatSync] and [readlinkSync] look at the
    entry itself. *)
Definition existsSync (p : string) : Async bool :=
  get (fun w => resolves hop_limit (fs w) p).

Definition lstatSync (p : string) : Async Stats :=
  fun w =>
    match fs w !! p with
    | Some n => (Returned (stats_of n), w)
    | None => (Thrown (Error "ENOENT"), w)
    end.

Definition readlinkSync (p : string) : Async string :=
  fun w =>
    match fs w !! p with
    | Some (Symlink t) => (Returned t, w)
    | Some _ => (Thrown (Error "EINVAL"), w)
    | None => (Thrown (Error "ENOENT"), w)
    end.

Definition fs_unlink (p : string) : Async unit :=
  fun w =>
    match fs w !! p with
    | Some Dir => (Thrown (Error "EPERM"), w)
    | Some _ => (Returned tt, with_fs (delete p (fs w)) w)
    | None => (Thrown (Error "ENOENT"), w)
    end.

(** [fs.symlink] where the folder that is to hold the link is there, as the
    vault's root always is: it fails on a taken name only.  For a link name
    with a folder part that is missing, Node fails with [ENOENT]; that case
    is outside this definition. *)
Definition fs_symlink (target p : string) : Async unit :=
  fun w =>
    match fs w !! p with
    | Some _ => (Thrown (Error "EEXIST"), w)
    | None => (Returned tt, with_fs (<[p := Symlink target]> (fs w)) w)
    end.

(** *** simple-git *)

(** A call to the client is recorded and answered.  What git writes of its
    own under [.git] of the project is not part of [fs], which holds the
    path names the link manager looks at. *)
Definition log_git (c : GitCall) : Async unit :=
  fun w => (Returned tt, with_git_calls (git_calls w ++ [c]) w).

Definition git_add (g : SimpleGit) (pathspec : string) : Async unit :=
  log_git (GitAdd pathspec) ;; answer (add_answer g pathspec).

Definition git_status (g : SimpleGit) : Async StatusResult :=
  log_git GitStatus ;; answer (status_answer g).

Definition git_commit (g : SimpleGit) (msg : string)
    (files : option (list string))
    (options : list (string * option string)) : Async unit :=
  log_git (GitCommit msg files options) ;; answer (commit_answer g msg).

Definition git_push (g : SimpleGit) : Async unit :=
  log_git GitPush ;; answer (push_answer g).

(** *** The modal *)

Definition modal_close : Async unit :=
  fun w => (Returned tt, with_modal_open false w).

(** ** zod: the schema language as far as [BlogSchema] uses it *)

Module Zod.

Inductive ZodType :=
| z_string
| z_boolean
| z_coerce_date
| z_optional (inner : ZodType).

(** [!isNaN(new Date(v).getTime())] *)
Definition new_Date_valid `{Host} (v : jsval) : bool :=
  match v with
  | JUndefined => false
  | JNull => true
  | JBool _ => true
  | JNum n => (Z.abs n <=? 8640000000000000)%Z
  | JDate time => match time with Some _ => true | None => false end
  | JStr _ | JArr _ | JObj _ => Date_parse_valid v
  end.

(** The issues one schema raises on one value ([_parse]). *)
Fixpoint zod_check `{Host} (t : ZodType) (v : jsval) : list IssueCode :=
  match t with
  | z_string =>
      match v with
      | JStr _ => []
      | _ => [invalid_type pt_string (getParsedType v)]
      end
  | z_boolean =>
      match v with
      | JBool _ => []
      | _ => [invalid_type pt_boolean (getParsedType v)]
      end
  | z_coerce_date => if new_Date_valid v then [] else [invalid_date]
  | z_optional inner =>
      match v with
      | JUndefined => []
      | _ => zod_check inner v
      end
  end.

Definition issue_at `{Host} (key : string) (c : IssueCode) : ZodIssue :=
  mkIssue c [key] (errorMap c).

(** [z.object(shape)]: every key of the shape is checked, in order, and
    the issues of all of them are collected; unknown keys are dropped. *)
Definition z_object_check `{Host} (shape : list (string * ZodType))
    (data : jsval) : list ZodIssue :=
  match data with
  | JObj fields =>
      flat_map (fun kt => map (issue_at (fst kt))
                              (zod_check (snd kt) (js_get (fst kt) fields)))
               shape
  | _ =>
      let c := invalid_type pt_object (getParsedType data) in
      [mkIssue c [] (errorMap c)]
  end.

(** [schema.parse(data)] *)
Definition z_parse `{Host} (shape : list (string * ZodType))
    (data : jsval) : Async unit :=
  match z_object_check shape data with
  | [] => ret tt
  | issues => throw (ZodError issues)
  end.

End Zod.
Export Zod.

(** ** The plugin *)

Definition BlogSchema : list (string * ZodType) :=
  [ ("title", z_string);
    ("description", z_string);
    ("pubDate", z_coerce_date);
    ("updatedDate", z_optional z_coerce_date);
    ("heroImage", z_optional z_string);
    ("published", z_optional z_boolean) ].

Definition nl : string := String "010"%char EmptyString.
Definition dquote : string := String "034"%char EmptyString.

Definition exn_message `{Host} (e : exn) : string :=
  match e with
  | ZodError issues => ZodError_message issues
  | Error msg => msg
  end.

Section WarBlog.
Context `{Host}.

Definition linkPath_of (vaultRoot : string) (s : Settings) : string :=
  path_join vaultRoot (symlinkName s).

Definition targetPath_of (s : Settings) : string :=
  path_join (astroRoot s) (contentFolder s).

(** The [try { await fs.symlink(...) } catch] that ends [setupSymlink]. *)
Definition create_link (targetPath linkPath : string) : Async unit :=
  try_catch
    (fs_symlink targetPath linkPath ;;
     new_Notice "Blog linked successfully" None)
    (fun err =>
       new_Notice "Failed to create link" None ;;
       console_error err).

Definition setupSymlink : Async unit :=
  a <- get adapter ;;
  match a with
  | OtherAdapter => ret tt
  | FileSystemAdapter vaultRoot =>
      s <- get settings ;;
      let linkPath := linkPath_of vaultRoot s in
      let targetPath := targetPath_of s in
      target_exists <- existsSync targetPath ;;
      if negb target_exists then new_Notice "Blog folder not found" None
      else
        link_exists <- existsSync linkPath ;;
        if link_exists then
          stats <- lstatSync linkPath ;;
          if isSymbolicLink stats then
            current <- readlinkSync linkPath ;;
            if String.eqb current targetPath then ret tt
            else (fs_unlink linkPath ;; create_link targetPath linkPath)
          else
            new_Notice ("Folder " +:+ dquote +:+ symlinkName s +:+ dquote
                        +:+ " already exists") None
        else create_link targetPath linkPath
  end.

Definition removeSymlink : Async unit :=
  a <- get adapter ;;
  match a with
  | OtherAdapter => ret tt
  | FileSystemAdapter vaultRoot =>
      s <- get settings ;;
      let linkPath := linkPath_of vaultRoot s in
      link_exists <- existsSync linkPath ;;
      if link_exists then
        stats <- lstatSync linkPath ;;
        if isSymbolicLink stats then fs_unlink linkPath else ret tt
      else ret tt
  end.

(** [`${i.path.join('.')}: ${i.message}`] *)
Definition format_issue (i : ZodIssue) : string :=
  String.concat "." (path i) +:+ ": " +:+ message i.

Definition validation_report (issues : list ZodIssue) : string :=
  "Validation failed:" +:+ nl +:+ String.concat nl (map format_issue issues).

Definition adapter_read (filePath : string) : Async string :=
  r <- get (fun w => vault_read w filePath) ;; answer r.

Definition validateFrontmatter (filePath : string) : Async bool :=
  try_catch
    (content <- adapter_read filePath ;;
     data <- answer (matter content) ;;
     z_parse BlogSchema data ;;
     ret true)
    (fun err =>
       match err with
       | ZodError issues => new_Notice (validation_report issues) (Some 8000%Z)
       | Error _ => ret tt
       end ;;
       ret false).

(** The [for (const file of files)] loop of [updateBlog]; [false] is its
    early [return]. *)
Fixpoint validate_files (files : list TFile) : Async bool :=
  match files with
  | [] => ret true
  | file :: rest =>
      valid <- validateFrontmatter (file_path file) ;;
      if valid then validate_files rest
      else (new_Notice ("Validation failed for " +:+ file_name file) None ;;
            ret false)
  end.

Definition content_files (w : World) : list TFile :=
  List.filter (fun f => String.prefix (symlinkName (settings w)) (file_path f))
              (markdownFiles w).

Definition no_changes (status : StatusResult) : bool :=
  match modified status, created status, deleted status with
  | [], [], [] => true
  | _, _, _ => false
  end.

Definition updateBlog : Async unit :=
  g <- get git ;;
  match g with
  | None => new_Notice "Git not configured" None
  | Some g =>
      try_catch
        (new_Notice "Updating blog..." None ;;
         files <- get content_files ;;
         all_valid <- validate_files files ;;
         if negb all_valid then ret tt
         else
           s <- get settings ;;
           git_add g (contentFolder s +:+ "/*") ;;
           status <- git_status g ;;
           if no_changes status then new_Notice "No changes to commit" None
           else
             timestamp <- get clock ;;
             git_commit g ("Update blog - " +:+ timestamp) None
                        [("--no-gpg-sign", None)] ;;
             git_push g ;;
             new_Notice "Blog updated successfully" None)
        (fun err =>
           new_Notice ("Update failed: " +:+ exn_message err) None ;;
           console_error err)
  end.

(** [PasswordModal.submit], with [this.password] as the argument. *)
Definition submit (password_input : string) : Async unit :=
  if String.eqb password_input EmptyString then
    new_Notice "Enter password" None
  else
    s <- get settings ;;
    if negb (String.eqb password_input (password s)) then
      new_Notice "Incorrect password" None
    else (modal_close ;; updateBlog).

End WarBlog.

(** ** The rest of the plugin: the modal, the data file, the settings tab *)

(** *** The handlers [PasswordModal.onOpen] installs

    [field] is [this.password], the text the input event last stored. *)

Section Modal.
Context `{Host}.

(** [if (e.key === "Enter" && this.password) void this.submit()] *)
Definition on_keypress (key field : string) : Async unit :=
  if String.eqb key "Enter" && negb (String.eqb field EmptyString)
  then submit field
  else ret tt.

Definition on_update_click (field : string) : Async unit := submit field.

Definition on_cancel_click : Async unit := modal_close.

End Modal.

(** *** The plugin with its data file

    [data.json] holds what [saveData] last wrote, an object of string
    fields; it is unset until something is saved.  Fields other than the
    four of [Settings] are never read and are left out. *)

Record Plugin := mkPlugin {
  host : World;
  data_json : option (gmap string string);
}.

Definition PluginM (A : Type) : Type := Plugin -> outcome A * Plugin.

Definition pret {A} (a : A) : PluginM A := fun p => (Returned a, p).

Definition pbind {A B} (m : PluginM A) (k : A -> PluginM B) : PluginM B :=
  fun p =>
    match m p with
    | (Returned a, p') => k a p'
    | (Thrown e, p') => (Thrown e, p')
    end.

(** A computation on the world, run inside the plugin. *)
Definition lift {A} (m : Async A) : PluginM A :=
  fun p =>
    match m (host p) with
    | (r, w') => (r, mkPlugin w' (data_json p))
    end.

Declare Scope plugin_scope.
Delimit Scope plugin_scope with plugin.
Notation "x <- m ;; k" := (pbind m (fun x => k))
  (at level 100, m at next level, right associativity) : plugin_scope.
Notation "m ;; k" := (pbind m (fun _ => k))
  (at level 100, right associativity) : plugin_scope.

Definition with_git (g : option SimpleGit) (w : World) : World :=
  mkWorld (settings w) (adapter w) (vault_read w) (markdownFiles w) g
          (clock w) (fs w) (notices w) (console w) (git_calls w) (modal_open w).

Definition settings_object (s : Settings) : gmap string string :=
  <["astroRoot" := astroRoot s]>
    (<["contentFolder" := contentFolder s]>
       (<["symlinkName" := symlinkName s]>
          (<["password" := password s]> ∅))).

(** [Object.assign({}, a, b)]: the fields of [b] over those of [a]. *)
Definition Object_assign (a b : gmap string string) : gmap string string :=
  b ∪ a.

(** [object as Settings] *)
Definition as_Settings (o : gmap string string) : Settings :=
  {| astroRoot := o !!! "astroRoot";
     contentFolder := o !!! "contentFolder";
     symlinkName := o !!! "symlinkName";
     password := o !!! "password" |}.

(** [this.settings = Object.assign({}, DEFAULT_SETTINGS, await this.loadData())];
    a missing data file is a [null] source, which adds nothing. *)
Definition loadSettings : PluginM unit :=
  fun p =>
    let merged :=
      Object_assign (settings_object DEFAULT_SETTINGS)
                    (match data_json p with Some data => data | None => ∅ end) in
    (Returned tt, mkPlugin (with_settings (as_Settings merged) (host p)) (data_json p)).

(** [await this.saveData(this.settings)] *)
Definition saveSettings : PluginM unit :=
  fun p =>
    (Returned tt, mkPlugin (host p) (Some (settings_object (settings (host p))))).

Definition set_astroRoot (v : string) : Async unit :=
  fun w =>
    let s := settings w in
    (Returned tt,
     with_settings (mkSettings v (contentFolder s) (symlinkName s) (password s)) w).

Definition set_contentFolder (v : string) : Async unit :=
  fun w =>
    let s := settings w in
    (Returned tt,
     with_settings (mkSettings (astroRoot s) v (symlinkName s) (password s)) w).

Definition set_symlinkName (v : string) : Async unit :=
  fun w =>
    let s := settings w in
    (Returned tt,
     with_settings (mkSettings (astroRoot s) (contentFolder s) v (password s)) w).

Definition set_password (v : string) : Async unit :=
  fun w =>
    let s := settings w in
    (Returned tt,
     with_settings (mkSettings (astroRoot s) (contentFolder s) (symlinkName s) v) w).

(** What [dialog.showOpenDialog] resolves to. *)
Record OpenDialogResult := mkDialogResult {
  canceled : bool;
  filePaths : list string;
}.

(** [selectFolder]; [dialog] is unset when neither import yields a dialog. *)
Definition selectFolder (dialog : option OpenDialogResult) : Async (option string) :=
  match dialog with
  | None => new_Notice "File picker unavailable" None ;; ret None
  | Some result =>
      ret (if canceled result then None else head (filePaths result))
  end.

Section Lifecycle.
Context `{Host}.
Local Open Scope plugin_scope.

(** [onload], with the [simpleGit] factory as it answers for a base
    directory.  The settings tab, the [mdx] extension and the command are
    registered with the host and leave no trace in the world. *)
Definition onload (simpleGit : string -> string + SimpleGit) : PluginM unit :=
  loadSettings ;;
  s <- lift (get settings) ;;
  if String.eqb (astroRoot s) EmptyString then pret tt
  else
    lift setupSymlink ;;
    g <- lift (answer (simpleGit (astroRoot s))) ;;
    lift (fun w => (Returned tt, with_git (Some g) w)).

(** The Browse button: [selectFolder], then the new root is stored, saved,
    and the link removed and set up again. *)
Definition on_browse (dialog : option OpenDialogResult) : PluginM unit :=
  folder <- lift (selectFolder dialog) ;;
  match folder with
  | None => pret tt
  | Some folder =>
      if String.eqb folder EmptyString then pret tt
      else
        folder_exists <- lift (existsSync folder) ;;
        if negb folder_exists then pret tt
        else
          lift (set_astroRoot folder) ;;
          saveSettings ;;
          lift removeSymlink ;;
          lift setupSymlink
  end.

(** The three text fields; [trim] is [String.prototype.trim]. *)
Definition on_contentFolder_change (trim : string -> string) (value : string)
    : PluginM unit :=
  lift (set_contentFolder (trim value)) ;; saveSettings.

Definition on_symlinkName_change (trim : string -> string) (value : string)
    : PluginM unit :=
  lift (set_symlinkName (trim value)) ;; saveSettings.

Definition on_password_change (value : string) : PluginM unit :=
  lift (set_password value) ;; saveSettings.

End Lifecycle.

(** ** Vocabulary of the statements *)

(** The world after one more plain notice. *)
Definition notify (text : string) (w : World) : World :=
  with_notices (notices w ++ [mkNotice text None]) w.

(** The text of the notice [setupSymlink] shows on a name conflict. *)
Definition conflict_text (s : Settings) : string :=
  "Folder " +:+ dquote +:+ symlinkName s +:+ dquote +:+ " already exists".

(** The verdict of [validateFrontmatter] on a path, read off the vault. *)
Definition file_valid `{Host} (read : string -> string + string)
    (filePath : string) : bool :=
  match read filePath with
  | inl _ => false
  | inr content =>
      match matter content with
      | inl _ => false
      | inr data =>
          match z_object_check BlogSchema data with
          | [] => true
          | _ :: _ => false
          end
      end
  end.

(** A schema field fails on an object when its check raises an issue. *)
Definition field_fails `{Host} (fields : list (string * jsval))
    (kt : string * ZodType) : bool :=
  match zod_check (snd kt) (js_get (fst kt) fields) with
  | [] => false
  | _ :: _ => true
  end.

(** *** The schema in the words of the specification

    "required: title [string], description [string], pubDate [date];
    optional: updatedDate [date], heroImage [string], published [boolean]",
    each required field present and of its declared type, each optional field
    of its declared type if present.  These definitions are written from
    those words, not from [zod_check], to be compared with it. *)

Inductive declared_type :=
| declared_string
| declared_date
| declared_boolean.

Definition spec_fields : list (string * (declared_type * bool)) :=
  [ ("title", (declared_string, true));
    ("description", (declared_string, true));
    ("pubDate", (declared_date, true));
    ("updatedDate", (declared_date, false));
    ("heroImage", (declared_string, false));
    ("published", (declared_boolean, false)) ].

(** A value that stands for a date: a valid date itself, or what the
    engine reads as one.  The schema coerces, so [null], the booleans and
    the numbers within the range of time values count, and a text counts
    when the engine's date parser takes it. *)
Definition reads_as_date `{Host} (v : jsval) : bool :=
  match v with
  | JDate (Some _) => true
  | JDate None => false
  | JNum n => ((-8640000000000000 <=? n) && (n <=? 8640000000000000))%Z
  | JNull => true
  | JBool _ => true
  | JUndefined => false
  | JStr _ => Date_parse_valid v
  | JArr _ => Date_parse_valid v
  | JObj _ => Date_parse_valid v
  end.

Definition spec_conforms `{Host} (d : declared_type) (v : jsval) : bool :=
  match d with
  | declared_string => match v with JStr _ => true | _ => false end
  | declared_boolean => match v with JBool _ => true | _ => false end
  | declared_date => reads_as_date v
  end.

(** A field is in order when it is of its declared type, or is optional
    and absent. *)
Definition spec_field_ok `{Host} (d : declared_type) (required : bool)
    (v : jsval) : bool :=
  match v with
  | JUndefined => negb required
  | _ => spec_conforms d v
  end.

(** The names of the declared fields that are not in order, in the order of
    the declaration. *)
Definition failing_keys `{Host} (fields : list (string * jsval)) : list string :=
  map fst
    (List.filter
       (fun e => negb (spec_field_ok (fst (snd e)) (snd (snd e))
                                     (js_get (fst e) fields)))
       spec_fields).

(** The zod type that declares a field of the specification. *)
Definition zod_of (e : declared_type * bool) : ZodType :=
  let base :=
    match fst e with
    | declared_string => z_string
    | declared_date => z_coerce_date
    | declared_boolean => z_boolean
    end in
  if snd e then base else z_optional base.

(** One line of the validation notice. *)
Definition report_line (key msg : string) : string := key +:+ ": " +:+ msg.

(** The world after a validation report. *)
Definition report (issues : list ZodIssue) (w : World) : World :=
  with_notices (notices w ++ [mkNotice (validation_report issues) (Some 8000%Z)]) w.

(** [w'] is [w] with more notices and nothing else changed. *)
Definition adds_notices (w w' : World) : Prop :=
  exists extra, w' = with_notices (notices w ++ extra) w.

(** The notices of [w'] begin with those of [w]. *)
Definition extends_notices (w w' : World) : Prop :=
  exists extra, notices w' = notices w ++ extra.

(** A computation moves every world along [R]. *)
Definition respects (R : World -> World -> Prop) {A} (m : Async A) : Prop :=
  forall w, R w (snd (m w)).

(** The four calls of a publish that goes through, in order. *)
Definition publish_calls (w : World) : list GitCall :=
  [ GitAdd (contentFolder (settings w) +:+ "/*");
    GitStatus;
    GitCommit ("Update blog - " +:+ clock w) None [("--no-gpg-sign", None)];
    GitPush ].

(** [w'] has the settings, the adapter, the git client and the vault of [w]. *)
Definition keeps_configuration (w w' : World) : Prop :=
  settings w' = settings w /\ adapter w' = adapter w /\
  git w' = git w /\ vault_read w' = vault_read w /\
  markdownFiles w' = markdownFiles w /\ clock w' = clock w.

(** [w'] is [w] after a publish that failed at its [n]-th call with [msg]. *)
Definition failed_at (n : nat) (msg : string) (w w' : World) : Prop :=
  git_calls w' = git_calls w ++ take n (publish_calls w) /\
  notices w'
  = notices w ++ [mkNotice "Updating blog..." None;
                  mkNotice ("Update failed: " +:+ msg) None] /\
  console w' = console w ++ [Error msg].

(** The settings with another project root. *)
Definition rooted_at (folder : string) (s : Settings) : Settings :=
  mkSettings folder (contentFolder s) (symlinkName s) (password s).

(** The data file holds the settings as they are now. *)
Definition in_sync (p : Plugin) : Prop :=
  data_json p = Some (settings_object (settings (host p))).

Definition is_vcs_write (c : GitCall) : bool :=
  match c with
  | GitCommit _ _ _ | GitPush => true
  | GitAdd _ | GitStatus => false
  end.

Ltac run :=
  cbv beta iota zeta delta [bind get ret negb existsSync try_catch create_link].

(** ** Fixtures: a host and a few worlds to run the plugin on *)

Module Fixtures.

Definition post_complete : string :=
  "---" +:+ nl +:+ "title: Hello" +:+ nl +:+ "description: First post" +:+ nl
  +:+ "pubDate: 2024-01-01" +:+ nl +:+ "---" +:+ nl +:+ "Text".

Definition post_dated_only : string :=
  "---" +:+ nl +:+ "pubDate: 2024-01-01" +:+ nl +:+ "---" +:+ nl +:+ "Text".

Definition post_broken : string :=
  "---" +:+ nl +:+ "title: [" +:+ nl +:+ "---" +:+ nl.

Definition new_year_2024 : Z := 1704067200000.

(** gray-matter on the three posts above; any other text has no front
    matter, and its data is the empty object. *)
Definition demo_matter (content : string) : string + jsval :=
  if String.eqb content post_complete then
    inr (JObj [("title", JStr "Hello"); ("description", JStr "First post");
               ("pubDate", JDate (Some new_year_2024))])
  else if String.eqb content post_dated_only then
    inr (JObj [("pubDate", JDate (Some new_year_2024))])
  else if String.eqb content post_broken then
    inl "YAMLException: unexpected end of the stream within a flow sequence"
  else inr (JObj []).

Definition type_name (t : ZodParsedType) : string :=
  match t with
  | pt_undefined => "undefined"
  | pt_null => "null"
  | pt_boolean => "boolean"
  | pt_number => "number"
  | pt_string => "string"
  | pt_date => "date"
  | pt_array => "array"
  | pt_object => "object"
  end.

(** The default error map of zod 3. *)
Definition demo_errorMap (c : IssueCode) : string :=
  match c with
  | invalid_type _ pt_undefined => "Required"
  | invalid_type expected received =>
      "Expected " +:+ type_name expected +:+ ", received " +:+ type_name received
  | invalid_date => "Invalid date"
  end.

#[export] Instance demo_host : Host := {|
  path_join := fun a b => a +:+ "/" +:+ b;
  matter := demo_matter;
  Date_parse_valid := fun v =>
    match v with JStr s => String.eqb s "2024-01-01" | _ => false end;
  errorMap := demo_errorMap;
  ZodError_message := fun _ => "ZodError";
|}.

Definition demo_settings : Settings :=
  {| astroRoot := "/site";
     contentFolder := "src/content/blog";
     symlinkName := "Blog";
     password := "hunter2" |}.

Definition demo_read (p : string) : string + string :=
  if String.eqb p "Blog/hello.md" then inr post_complete
  else if String.eqb p "Blog-drafts/x.md" then inr post_dated_only
  else if String.eqb p "Blog/broken.md" then inr post_broken
  else inl "ENOENT: no such file or directory".

Definition clean_git : SimpleGit :=
  {| add_answer := fun _ => inr tt;
     status_answer := inr (mkStatus [] [] []);
     commit_answer := fun _ => inr tt;
     push_answer := inr tt |}.

Definition dirty_git : SimpleGit :=
  {| add_answer := fun _ => inr tt;
     status_answer := inr (mkStatus ["src/content/blog/hello.md"] [] []);
     commit_answer := fun _ => inr tt;
     push_answer := inr tt |}.

(** A desktop vault at [/vault], the site at [/site], nothing done yet. *)
Definition demo_world (files : list TFile) (g : option SimpleGit)
    (f : gmap string node) : World :=
  {| settings := demo_settings;
     adapter := FileSystemAdapter "/vault";
     vault_read := demo_read;
     markdownFiles := files;
     git := g;
     clock := "1/1/2024, 12:00:00 PM";
     fs := f;
     notices := [];
     console := [];
     git_calls := [];
     modal_open := true |}.

Definition hello_md : TFile := mkTFile "Blog/hello.md" "hello.md".
Definition draft_md : TFile := mkTFile "Blog-drafts/x.md" "x.md".
Definition broken_md : TFile := mkTFile "Blog/broken.md" "broken.md".
Definition note_md : TFile := mkTFile "Notes/todo.md" "todo.md".

Definition site_only : gmap string node :=
  {[ "/site/src/content/blog" := Dir ]}.

(** The site is there and the vault already has a folder called [Blog]. *)
Definition own_folder : gmap string node :=
  <[ "/vault/Blog" := Dir ]> site_only.

(** The vault has a folder called [Blog]; the site has been moved away. *)
Definition own_folder_no_site : gmap string node :=
  {[ "/vault/Blog" := Dir ]}.

(** The link is in place. *)
Definition linked : gmap string node :=
  <[ "/vault/Blog" := Symlink "/site/src/content/blog" ]> site_only.

(** The link is in place; the site has been moved away. *)
Definition linked_no_site : gmap string node :=
  {[ "/vault/Blog" := Symlink "/site/src/content/blog" ]}.

(** The link still names the content folder of a site that is gone. *)
Definition stale_dangling : gmap string node :=
  <[ "/vault/Blog" := Symlink "/old/src/content/blog" ]> site_only.

(** The link names the content folder of another site that is still there. *)
Definition stale_live : gmap string node :=
  <[ "/vault/Blog" := Symlink "/old/src/content/blog" ]>
    (<[ "/old/src/content/blog" := Dir ]> site_only).

Definition w_unlinked : World := demo_world [] None site_only.
Definition w_own_folder : World := demo_world [] None own_folder.
Definition w_own_folder_no_site : World := demo_world [] None own_folder_no_site.
Definition w_linked : World := demo_world [] None linked.
Definition w_linked_no_site : World := demo_world [] None linked_no_site.
Definition w_stale_dangling : World := demo_world [] None stale_dangling.
Definition w_stale_live : World := demo_world [] None stale_live.
Definition w_no_site : World := demo_world [] None ∅.

(** A draft outside the linked folder lacks its title and description. *)
Definition w_with_draft : World :=
  demo_world [hello_md; draft_md; note_md] (Some dirty_git) linked.

Definition offline_git : SimpleGit :=
  {| add_answer := fun _ => inr tt;
     status_answer := inr (mkStatus ["src/content/blog/hello.md"] [] []);
     commit_answer := fun _ => inr tt;
     push_answer := inl "fatal: unable to access the remote" |}.

(** A valid post with changes to publish. *)
Definition w_ready : World := demo_world [hello_md; note_md] (Some dirty_git) linked.

(** The same, with the remote out of reach. *)
Definition w_offline : World := demo_world [hello_md; note_md] (Some offline_git) linked.

(** A post with broken front matter before the draft. *)
Definition w_with_broken : World :=
  demo_world [hello_md; broken_md; draft_md] (Some dirty_git) linked.

Definition gone_md : TFile := mkTFile "Blog/gone.md" "gone.md".

(** A post that can no longer be read, before the draft. *)
Definition w_with_unreadable : World :=
  demo_world [hello_md; gone_md; draft_md] (Some dirty_git) linked.

(** The link name has been cleared in the settings tab. *)
Definition w_nameless : World :=
  with_settings (mkSettings "/site" "src/content/blog" EmptyString "hunter2")
    (demo_world [note_md; hello_md] (Some dirty_git) linked).

(** Spaces off both ends. *)
Fixpoint trim_left (s : string) : string :=
  match s with
  | String " " rest => trim_left rest
  | _ => s
  end.

Fixpoint trim_right (s : string) : string :=
  match s with
  | EmptyString => EmptyString
  | String c rest =>
      match trim_right rest with
      | EmptyString => if Ascii.eqb c " " then EmptyString else String c EmptyString
      | kept => String c kept
      end
  end.

Definition demo_trim (s : string) : string := trim_right (trim_left s).

(** The vault is linked to an older site; [/site] and an empty folder
    [/elsewhere] are there to be chosen. *)
Definition two_sites : gmap string node :=
  <[ "/site" := Dir ]> (<[ "/elsewhere" := Dir ]> stale_live).

Definition old_settings : Settings :=
  {| astroRoot := "/old";
     contentFolder := "src/content/blog";
     symlinkName := "Blog";
     password := "hunter2" |}.

Definition p_old_site : Plugin :=
  mkPlugin (with_settings old_settings (demo_world [] None two_sites))
           (Some (settings_object old_settings)).

(** Nothing saved yet. *)
Definition p_fresh : Plugin :=
  mkPlugin (with_settings DEFAULT_SETTINGS (demo_world [] None site_only)) None.

(** A data file of an earlier version: only the root and the password. *)
Definition p_partial : Plugin :=
  mkPlugin (with_settings DEFAULT_SETTINGS (demo_world [] None site_only))
           (Some (<["astroRoot" := "/site"]> (<["password" := "hunter2"]> ∅))).

Definition pick (folder : string) : option OpenDialogResult :=
  Some (mkDialogResult false [folder]).

Definition git_for_site (root : string) : string + SimpleGit :=
  if String.eqb root "/site" then inr clean_git
  else inl "Cannot use simple-git on a directory that does not exist".

(** Every post is valid and the repository has nothing to commit. *)
Definition w_nothing_new : World :=
  demo_world [hello_md; note_md] (Some clean_git) linked.

End Fixtures.

(** * Properties *)

Arguments resolves : simpl never.

(** ** Path resolution *)

Lemma resolves_unfold (hops : nat) (f : gmap string node) (p : string) :
  resolves (S hops) f p =
  match f !! p with
  | None => false
  | Some (Symlink t) => resolves hops f t
  | Some _ => true
  end.
Proof. reflexivity. Qed.

Lemma resolves_occupied (hops : nat) (f : gmap string node) (p : string) :
  resolves hops f p = true -> exists n, f !! p = Some n.
Proof.
  destruct hops; unfold resolves; fold resolves;
    destruct (f !! p) as [n|] eqn:E; try discriminate; eauto.
Qed.

Lemma resolves_more (hops : nat) (f : gmap string node) :
  forall p, resolves hops f p = true -> resolves (S hops) f p = true.
Proof.
  induction hops as [|hops IH]; intros p.
  - rewrite resolves_unfold. unfold resolves.
    destruct (f !! p) as [[| |t]|]; auto; discriminate.
  - rewrite (resolves_unfold (S hops)), (resolves_unfold hops).
    destruct (f !! p) as [[| |t]|]; auto.
Qed.

Lemma resolves_plain (hops : nat) (f : gmap string node) (p : string) (n : node) :
  f !! p = Some n -> is_symlink n = false -> resolves hops f p = true.
Proof.
  intros E Hn. destruct hops; unfold resolves; fold resolves; rewrite E;
    destruct n; auto; discriminate.
Qed.

(** A link resolves exactly when what it names resolves in one hop less. *)
Lemma resolves_link (f : gmap string node) (p t : string) :
  f !! p = Some (Symlink t) ->
  resolves hop_limit f p = resolves (pred hop_limit) f t.
Proof.
  intros E. change hop_limit with (S (pred hop_limit)).
  rewrite resolves_unfold, E. reflexivity.
Qed.

Lemma link_resolves_target (f : gmap string node) (p t : string) :
  f !! p = Some (Symlink t) ->
  resolves hop_limit f p = true -> resolves hop_limit f t = true.
Proof.
  intros E R. rewrite (resolves_link _ _ _ E) in R.
  apply resolves_more in R. exact R.
Qed.

(** ** The link manager, case by case *)

Section LinkManager.
Context `{Host}.


Lemma setupSymlink_no_vault_root (w : World) :
  adapter w = OtherAdapter -> setupSymlink w = (Returned tt, w).
Proof. intros Ha. unfold setupSymlink. run. rewrite Ha. reflexivity. Qed.

Lemma setupSymlink_target_missing (w : World) (root : string) :
  adapter w = FileSystemAdapter root ->
  resolves hop_limit (fs w) (targetPath_of (settings w)) = false ->
  setupSymlink w = (Returned tt, notify "Blog folder not found" w).
Proof.
  intros Ha Ht. unfold setupSymlink. run. rewrite Ha. run.
  rewrite Ht. reflexivity.
Qed.

Lemma setupSymlink_conflict (w : World) (root : string) (n : node) :
  adapter w = FileSystemAdapter root ->
  resolves hop_limit (fs w) (targetPath_of (settings w)) = true ->
  fs w !! linkPath_of root (settings w) = Some n ->
  is_symlink n = false ->
  setupSymlink w = (Returned tt, notify (conflict_text (settings w)) w).
Proof.
  intros Ha Ht El Hn. unfold setupSymlink. run. rewrite Ha. run.
  rewrite Ht. run. rewrite (resolves_plain _ _ _ _ El Hn).
  unfold lstatSync. rewrite El. destruct n; try discriminate; reflexivity.
Qed.

Lemma setupSymlink_current (w : World) (root : string) :
  adapter w = FileSystemAdapter root ->
  fs w !! linkPath_of root (settings w)
    = Some (Symlink (targetPath_of (settings w))) ->
  resolves hop_limit (fs w) (linkPath_of root (settings w)) = true ->
  setupSymlink w = (Returned tt, w).
Proof.
  intros Ha El Rl. unfold setupSymlink. run. rewrite Ha. run.
  rewrite (link_resolves_target _ _ _ El Rl). run. rewrite Rl.
  unfold lstatSync, readlinkSync. rewrite El. run. cbn [stats_of isSymbolicLink].
  rewrite El, String.eqb_refl. reflexivity.
Qed.

Lemma setupSymlink_fresh (w : World) (root : string) :
  adapter w = FileSystemAdapter root ->
  resolves hop_limit (fs w) (targetPath_of (settings w)) = true ->
  fs w !! linkPath_of root (settings w) = None ->
  setupSymlink w =
  (Returned tt,
   notify "Blog linked successfully"
     (with_fs (<[linkPath_of root (settings w)
                 := Symlink (targetPath_of (settings w))]> (fs w)) w)).
Proof.
  intros Ha Ht El. unfold setupSymlink. run. rewrite Ha. run.
  rewrite Ht. run.
  assert (resolves hop_limit (fs w) (linkPath_of root (settings w)) = false)
    as ->.
  { destruct (resolves hop_limit (fs w) (linkPath_of root (settings w))) eqn:R;
      auto. apply resolves_occupied in R as [n En]. congruence. }
  unfold fs_symlink. rewrite El. reflexivity.
Qed.

Lemma setupSymlink_stale (w : World) (root old : string) :
  adapter w = FileSystemAdapter root ->
  resolves hop_limit (fs w) (targetPath_of (settings w)) = true ->
  fs w !! linkPath_of root (settings w) = Some (Symlink old) ->
  old <> targetPath_of (settings w) ->
  resolves hop_limit (fs w) (linkPath_of root (settings w)) = true ->
  setupSymlink w =
  (Returned tt,
   notify "Blog linked successfully"
     (with_fs (<[linkPath_of root (settings w)
                 := Symlink (targetPath_of (settings w))]>
               (delete (linkPath_of root (settings w)) (fs w))) w)).
Proof.
  intros Ha Ht El Hne Rl. unfold setupSymlink. run. rewrite Ha. run.
  rewrite Ht. run. rewrite Rl.
  unfold lstatSync, readlinkSync. rewrite El. run. cbn [stats_of isSymbolicLink].
  rewrite El. apply String.eqb_neq in Hne. rewrite Hne.
  unfold fs_unlink. rewrite El.
  unfold fs_symlink. cbn [fs with_fs]. rewrite lookup_delete_eq. reflexivity.
Qed.

(** An occupant that does not resolve is a link whose chain breaks. *)
Lemma setupSymlink_dangling (w : World) (root : string) (n : node) :
  adapter w = FileSystemAdapter root ->
  resolves hop_limit (fs w) (targetPath_of (settings w)) = true ->
  fs w !! linkPath_of root (settings w) = Some n ->
  resolves hop_limit (fs w) (linkPath_of root (settings w)) = false ->
  setupSymlink w =
  (Returned tt,
   with_console (console w ++ [Error "EEXIST"])
     (notify "Failed to create link" w)).
Proof.
  intros Ha Ht El Rl. unfold setupSymlink. run. rewrite Ha. run.
  rewrite Ht. run. rewrite Rl.
  unfold fs_symlink. rewrite El. reflexivity.
Qed.

Lemma removeSymlink_cases (w : World) :
  removeSymlink w = (Returned tt, w) \/
  exists root old,
    adapter w = FileSystemAdapter root /\
    fs w !! linkPath_of root (settings w) = Some (Symlink old) /\
    removeSymlink w =
    (Returned tt, with_fs (delete (linkPath_of root (settings w)) (fs w)) w).
Proof.
  unfold removeSymlink. run. destruct (adapter w) as [root|] eqn:Ha; auto.
  run. destruct (resolves hop_limit (fs w) _) eqn:Rl; auto.
  unfold lstatSync.
  destruct (fs w !! linkPath_of root (settings w)) as [[| |old]|] eqn:El;
    cbn [stats_of isSymbolicLink]; auto.
  - right. exists root, old. repeat split; auto.
    unfold fs_unlink. rewrite El. reflexivity.
  - apply resolves_occupied in Rl as [n En]. congruence.
Qed.

(** Every call returns, and what it can do to the file system is to put
    the link where there was no entry or a link. *)
Lemma setupSymlink_cases (w : World) :
  exists w',
    setupSymlink w = (Returned tt, w') /\
    adapter w' = adapter w /\ settings w' = settings w /\
    (fs w' = fs w \/
     exists root,
       adapter w = FileSystemAdapter root /\
       (forall n, fs w !! linkPath_of root (settings w) = Some n ->
                  is_symlink n = true) /\
       fs w' = <[linkPath_of root (settings w)
                 := Symlink (targetPath_of (settings w))]>
               (delete (linkPath_of root (settings w)) (fs w))).
Proof.
  destruct (adapter w) as [root|] eqn:Ha.
  2:{ exists w. rewrite setupSymlink_no_vault_root; auto. }
  destruct (resolves hop_limit (fs w) (targetPath_of (settings w))) eqn:Rt.
  2:{ eexists. rewrite (setupSymlink_target_missing w root); auto. }
  destruct (fs w !! linkPath_of root (settings w)) as [n|] eqn:El.
  2:{ eexists. rewrite (setupSymlink_fresh w root); auto.
      repeat split; auto. right. exists root. repeat split; auto.
      - intros n En. congruence.
      - cbn. rewrite delete_id; auto. }
  destruct (resolves hop_limit (fs w) (linkPath_of root (settings w))) eqn:Rl.
  2:{ eexists. rewrite (setupSymlink_dangling w root n); auto. }
  destruct n as [| |old].
  1,2: eexists; rewrite (setupSymlink_conflict w root _ Ha Rt El); auto.
  destruct (String.eqb_spec old (targetPath_of (settings w))) as [->|Hne].
  - exists w. rewrite (setupSymlink_current w root); auto.
  - eexists. rewrite (setupSymlink_stale w root old); auto.
    repeat split; auto. right. exists root. repeat split; auto.
    intros n En. rewrite El in En. injection En as <-. reflexivity.
Qed.

(** Once the link path holds the link to the current target, no case of
    [setupSymlink] touches the file system. *)
Lemma setupSymlink_settled (w : World) (root : string) :
  adapter w = FileSystemAdapter root ->
  fs w !! linkPath_of root (settings w)
    = Some (Symlink (targetPath_of (settings w))) ->
  fs (snd (setupSymlink w)) = fs w.
Proof.
  intros Ha El.
  destruct (resolves hop_limit (fs w) (targetPath_of (settings w))) eqn:Rt.
  2:{ rewrite (setupSymlink_target_missing w root); auto. }
  destruct (resolves hop_limit (fs w) (linkPath_of root (settings w))) eqn:Rl.
  - rewrite (setupSymlink_current w root); auto.
  - rewrite (setupSymlink_dangling w root _ Ha Rt El Rl); auto.
Qed.

Lemma setupSymlink_twice (w : World) :
  fs (snd (setupSymlink (snd (setupSymlink w)))) = fs (snd (setupSymlink w)).
Proof.
  destruct (adapter w) as [root|] eqn:Ha.
  2:{ rewrite (setupSymlink_no_vault_root w Ha). cbn [snd].
      rewrite (setupSymlink_no_vault_root w Ha). reflexivity. }
  destruct (resolves hop_limit (fs w) (targetPath_of (settings w))) eqn:Rt.
  2:{ rewrite (setupSymlink_target_missing w root Ha Rt). cbn [snd].
      rewrite (setupSymlink_target_missing _ root); auto. }
  destruct (fs w !! linkPath_of root (settings w)) as [n|] eqn:El.
  2:{ rewrite (setupSymlink_fresh w root Ha Rt El). cbn [snd].
      apply (setupSymlink_settled _ root); auto.
      cbn. apply lookup_insert_eq. }
  destruct (resolves hop_limit (fs w) (linkPath_of root (settings w))) eqn:Rl.
  2:{ rewrite (setupSymlink_dangling w root n Ha Rt El Rl). cbn [snd].
      rewrite (setupSymlink_dangling _ root n); auto. }
  destruct n as [| |old].
  1,2: rewrite (setupSymlink_conflict w root _ Ha Rt El eq_refl); cbn [snd];
       rewrite (setupSymlink_conflict (notify _ w) root _ Ha Rt El eq_refl);
       reflexivity.
  destruct (String.eqb_spec old (targetPath_of (settings w))) as [->|Hne].
  - rewrite (setupSymlink_current w root Ha El Rl). cbn [snd].
    rewrite (setupSymlink_current w root Ha El Rl). reflexivity.
  - rewrite (setupSymlink_stale w root old Ha Rt El Hne Rl). cbn [snd].
    apply (setupSymlink_settled _ root); auto.
    cbn. apply lookup_insert_eq.
Qed.

(** C2 (as amended).  [setupSymlink] and [removeSymlink] leave every entry
    that is not a symbolic link in place, at the link path as anywhere
    else; [removeSymlink] changes the file system only by deleting the link
    path when it holds a symbolic link.  On a non-link occupant, behind a
    [FileSystemAdapter], [setupSymlink] shows the name conflict when the
    target directory exists and "Blog folder not found" when it does not. *)
Theorem link_manager_spares_foreign_content (w : World) :
  (forall p n, fs w !! p = Some n -> is_symlink n = false ->
               fs (snd (setupSymlink w)) !! p = Some n) /\
  (forall p n, fs w !! p = Some n -> is_symlink n = false ->
               fs (snd (removeSymlink w)) !! p = Some n) /\
  (fs (snd (removeSymlink w)) = fs w \/
   exists root old,
     adapter w = FileSystemAdapter root /\
     fs w !! linkPath_of root (settings w) = Some (Symlink old) /\
     fs (snd (removeSymlink w)) = delete (linkPath_of root (settings w)) (fs w)) /\
  (forall root n,
     adapter w = FileSystemAdapter root ->
     fs w !! linkPath_of root (settings w) = Some n ->
     is_symlink n = false ->
     (resolves hop_limit (fs w) (targetPath_of (settings w)) = true ->
      setupSymlink w = (Returned tt, notify (conflict_text (settings w)) w)) /\
     (resolves hop_limit (fs w) (targetPath_of (settings w)) = false ->
      setupSymlink w = (Returned tt, notify "Blog folder not found" w))).
Proof.
  repeat split.
  - intros p n Ep Hn.
    destruct (setupSymlink_cases w) as (w' & -> & _ & _ & Hfs). cbn [snd].
    destruct Hfs as [->|(root & _ & Hl & ->)]; auto.
    destruct (decide (linkPath_of root (settings w) = p)) as [<-|Hne].
    + rewrite (Hl n Ep) in Hn. discriminate.
    + rewrite lookup_insert_ne, lookup_delete_ne; auto.
  - intros p n Ep Hn.
    destruct (removeSymlink_cases w) as [->|(root & old & _ & El & ->)]; auto.
    cbn. destruct (decide (linkPath_of root (settings w) = p)) as [<-|Hne].
    + rewrite El in Ep. injection Ep as <-. discriminate.
    + rewrite lookup_delete_ne; auto.
  - destruct (removeSymlink_cases w) as [->|(root & old & Ha & El & ->)]; auto.
    right. exists root, old. auto.
  - intros Rt. apply (setupSymlink_conflict w root n); auto.
  - intros Rt. apply (setupSymlink_target_missing w root); auto.
Qed.

(** C4 (as amended).  Where the link path already holds a symbolic link to
    exactly the current target, [setupSymlink] changes nothing on the file
    system and returns; when the link resolves it shows no notice at all,
    and when the target directory does not exist it shows "Blog folder not
    found".  In every world a second call in a row leaves the file system of
    the first call as it is. *)
Theorem setupSymlink_idempotent (w : World) :
  (forall root,
     adapter w = FileSystemAdapter root ->
     fs w !! linkPath_of root (settings w)
       = Some (Symlink (targetPath_of (settings w))) ->
     fst (setupSymlink w) = Returned tt /\
     fs (snd (setupSymlink w)) = fs w /\
     (resolves hop_limit (fs w) (linkPath_of root (settings w)) = true ->
      setupSymlink w = (Returned tt, w)) /\
     (resolves hop_limit (fs w) (targetPath_of (settings w)) = false ->
      setupSymlink w = (Returned tt, notify "Blog folder not found" w))) /\
  fs (snd ((setupSymlink ;; setupSymlink) w)) = fs (snd (setupSymlink w)) /\
  fs (snd (setupSymlink (snd (setupSymlink w)))) = fs (snd (setupSymlink w)).
Proof.
  split; [|split].
  - intros root Ha El. repeat split.
    + destruct (setupSymlink_cases w) as (w' & -> & _). reflexivity.
    + apply (setupSymlink_settled w root); auto.
    + intros Rl. apply (setupSymlink_current w root); auto.
    + intros Rt. apply (setupSymlink_target_missing w root); auto.
  - pose proof (setupSymlink_twice w) as Htwice. unfold bind.
    destruct (setupSymlink_cases w) as (w' & E & _). rewrite E in *.
    exact Htwice.
  - apply setupSymlink_twice.
Qed.

(** C7.  A stale link whose own target is gone is not replaced: the link path
    does not resolve, so the removal is skipped, [fs.symlink] fails on the
    occupied name, and the stale link stays behind a "Failed to create link"
    notice. *)
Theorem setupSymlink_keeps_dangling_stale_link (w : World) (root old : string) :
  adapter w = FileSystemAdapter root ->
  resolves hop_limit (fs w) (targetPath_of (settings w)) = true ->
  fs w !! linkPath_of root (settings w) = Some (Symlink old) ->
  old <> targetPath_of (settings w) ->
  resolves hop_limit (fs w) (linkPath_of root (settings w)) = false ->
  setupSymlink w =
  (Returned tt,
   with_console (console w ++ [Error "EEXIST"])
     (notify "Failed to create link" w)) /\
  fs (snd (setupSymlink w)) !! linkPath_of root (settings w)
    = Some (Symlink old).
Proof.
  intros Ha Rt El _ Rl.
  rewrite (setupSymlink_dangling w root _ Ha Rt El Rl). split; auto.
Qed.

(** C8.  When the resolved target directory does not exist, [setupSymlink]
    shows "Blog folder not found", leaves the file system as it is and
    returns without an error.  The vault is one with a root on the file
    system, as everywhere the link path is defined. *)
Theorem setupSymlink_without_target (w : World) (root : string) :
  adapter w = FileSystemAdapter root ->
  resolves hop_limit (fs w) (targetPath_of (settings w)) = false ->
  setupSymlink w = (Returned tt, notify "Blog folder not found" w) /\
  fst (setupSymlink w) = Returned tt /\
  fs (snd (setupSymlink w)) = fs w /\
  notices (snd (setupSymlink w))
  = notices w ++ [mkNotice "Blog folder not found" None].
Proof.
  intros Ha Rt. rewrite (setupSymlink_target_missing w root Ha Rt).
  split; [reflexivity|]. split; [reflexivity|]. split; reflexivity.
Qed.

End LinkManager.

(** *** The link manager on the fixtures *)

Import Fixtures.

Lemma link_manager_spares_foreign_content_witness :
  fs (snd (setupSymlink w_own_folder)) !! "/vault/Blog" = Some Dir /\
  fs (snd (removeSymlink w_own_folder)) !! "/vault/Blog" = Some Dir /\
  setupSymlink w_own_folder
    = (Returned tt, notify (conflict_text demo_settings) w_own_folder).
Proof.
  destruct (link_manager_spares_foreign_content w_own_folder)
    as (Hs & Hr & _ & Hc).
  split; [|split].
  - apply Hs; reflexivity.
  - apply Hr; reflexivity.
  - apply (Hc "/vault" Dir); reflexivity.
Defined.

(** C2, as stated, fails: with the target directory gone, a folder at the link
    path is answered with "Blog folder not found", not with a name conflict. *)
Lemma setupSymlink_conflict_unreported_without_target :
  fs w_own_folder_no_site !! "/vault/Blog" = Some Dir /\
  setupSymlink w_own_folder_no_site
    = (Returned tt, notify "Blog folder not found" w_own_folder_no_site) /\
  notices (snd (setupSymlink w_own_folder_no_site))
    = [mkNotice "Blog folder not found" None].
Proof. repeat split; vm_compute; reflexivity. Qed.

Lemma setupSymlink_idempotent_witness :
  setupSymlink w_linked = (Returned tt, w_linked) /\
  fs (snd (setupSymlink (snd (setupSymlink w_unlinked)))) = linked.
Proof.
  destruct (setupSymlink_idempotent w_linked) as (Hl & _ & _).
  destruct (Hl "/vault" eq_refl eq_refl) as (_ & _ & Hsilent & _).
  destruct (setupSymlink_idempotent w_unlinked) as (_ & _ & Htwice).
  split.
  - apply Hsilent. vm_compute. reflexivity.
  - rewrite Htwice. vm_compute. reflexivity.
Defined.

(** C4, as stated, fails: with the right link in place no success is
    reported; the call shows "Blog folder not found" when the target is gone
    and nothing at all when it is there. *)
Lemma setupSymlink_current_link_reports_no_success :
  fs w_linked_no_site !! "/vault/Blog"
    = Some (Symlink (targetPath_of (settings w_linked_no_site))) /\
  notices (snd (setupSymlink w_linked_no_site))
    = [mkNotice "Blog folder not found" None] /\
  fs w_linked !! "/vault/Blog"
    = Some (Symlink (targetPath_of (settings w_linked))) /\
  notices (snd (setupSymlink w_linked)) = [].
Proof. repeat split; vm_compute; reflexivity. Qed.

Lemma setupSymlink_keeps_dangling_stale_link_witness :
  setupSymlink w_stale_dangling =
  (Returned tt,
   with_console (console w_stale_dangling ++ [Error "EEXIST"])
     (notify "Failed to create link" w_stale_dangling)) /\
  fs (snd (setupSymlink w_stale_dangling))
    !! linkPath_of "/vault" (settings w_stale_dangling)
    = Some (Symlink "/old/src/content/blog").
Proof.
  apply (setupSymlink_keeps_dangling_stale_link
           w_stale_dangling "/vault" "/old/src/content/blog").
  - reflexivity.
  - vm_compute. reflexivity.
  - vm_compute. reflexivity.
  - discriminate.
  - vm_compute. reflexivity.
Defined.

(** Choosing the new project root does not repair the link either:
    [removeSymlink] skips a link that does not resolve, like [setupSymlink]. *)
Example on_browse_keeps_dangling_link :
  let w := demo_world [] None
             (<[ "/vault/Blog" := Symlink "/old/src/content/blog" ]>
                (<[ "/site" := Dir ]> site_only)) in
  let p := mkPlugin
             (with_settings (mkSettings "/old" "src/content/blog" "Blog" "hunter2") w)
             None in
  let p' := snd (on_browse (Some (mkDialogResult false ["/site"])) p) in
  fs (host p') !! "/vault/Blog" = Some (Symlink "/old/src/content/blog") /\
  notices (host p') = [mkNotice "Failed to create link" None].
Proof. split; vm_compute; reflexivity. Qed.

(** A stale link whose target is still there is replaced. *)
Example setupSymlink_replaces_live_stale_link :
  fs (snd (setupSymlink w_stale_live)) !! "/vault/Blog"
    = Some (Symlink "/site/src/content/blog") /\
  notices (snd (setupSymlink w_stale_live))
    = [mkNotice "Blog linked successfully" None].
Proof. split; vm_compute; reflexivity. Qed.

Lemma setupSymlink_without_target_witness :
  resolves hop_limit (fs w_no_site) (targetPath_of (settings w_no_site)) = false /\
  setupSymlink w_no_site = (Returned tt, notify "Blog folder not found" w_no_site).
Proof.
  assert (resolves hop_limit (fs w_no_site) (targetPath_of (settings w_no_site))
          = false) as Rt by (vm_compute; reflexivity).
  split; [exact Rt|].
  apply (setupSymlink_without_target w_no_site "/vault" eq_refl Rt).
Defined.

(** ** Computations that move the world along a preorder *)

Section Respects.
Context (R : World -> World -> Prop) `{!PreOrder R}.

Lemma respects_ret {A} (a : A) : respects R (ret a).
Proof. intros w. reflexivity. Qed.

Lemma respects_throw {A} (e : exn) : respects R (@throw A e).
Proof. intros w. reflexivity. Qed.

Lemma respects_get {A} (f : World -> A) : respects R (get f).
Proof. intros w. reflexivity. Qed.

Lemma respects_answer {A} (r : string + A) : respects R (answer r).
Proof. destruct r; [apply respects_throw | apply respects_ret]. Qed.

Lemma respects_bind {A B} (m : Async A) (k : A -> Async B) :
  respects R m -> (forall a, respects R (k a)) -> respects R (bind m k).
Proof.
  intros Hm Hk w. unfold bind. specialize (Hm w).
  destruct (m w) as [[a|e] w1]; cbn [snd] in *; auto.
  etransitivity; [exact Hm | apply Hk].
Qed.

Lemma respects_try_catch {A} (m : Async A) (h : exn -> Async A) :
  respects R m -> (forall e, respects R (h e)) -> respects R (try_catch m h).
Proof.
  intros Hm Hh w. unfold try_catch. specialize (Hm w).
  destruct (m w) as [[a|e] w1]; cbn [snd] in *; auto.
  etransitivity; [exact Hm | apply Hh].
Qed.

Lemma respects_if {A} (b : bool) (m1 m2 : Async A) :
  respects R m1 -> respects R m2 -> respects R (if b then m1 else m2).
Proof. destruct b; auto. Qed.

End Respects.

Create HintDb respects.

#[export] Hint Resolve respects_ret respects_throw respects_get respects_answer
  respects_if : respects.

Lemma with_notices_same (w : World) : with_notices (notices w) w = w.
Proof. destruct w; reflexivity. Qed.

#[export] Instance adds_notices_preorder : PreOrder adds_notices.
Proof.
  split.
  - intros w. exists []. rewrite app_nil_r. symmetry. apply with_notices_same.
  - intros w1 w2 w3 [e1 ->] [e2 ->]. exists (e1 ++ e2). cbn.
    rewrite app_assoc. reflexivity.
Qed.

#[export] Instance extends_notices_preorder : PreOrder extends_notices.
Proof.
  split.
  - intros w. exists []. rewrite app_nil_r. reflexivity.
  - intros w1 w2 w3 [e1 E1] [e2 E2]. exists (e1 ++ e2).
    rewrite E2, E1, app_assoc. reflexivity.
Qed.

Lemma adds_extends (w w' : World) : adds_notices w w' -> extends_notices w w'.
Proof. intros [extra ->]. exists extra. reflexivity. Qed.

Lemma new_Notice_adds (text : string) (duration : option Z) :
  respects adds_notices (new_Notice text duration).
Proof. intros w. eexists. reflexivity. Qed.

Lemma new_Notice_extends (text : string) (duration : option Z) :
  respects extends_notices (new_Notice text duration).
Proof. intros w. eexists. reflexivity. Qed.

Lemma console_error_extends (e : exn) : respects extends_notices (console_error e).
Proof. intros w. exists []. cbn. rewrite app_nil_r. reflexivity. Qed.

Lemma log_git_extends (c : GitCall) : respects extends_notices (log_git c).
Proof. intros w. exists []. cbn. rewrite app_nil_r. reflexivity. Qed.

#[export] Hint Resolve new_Notice_adds new_Notice_extends console_error_extends
  log_git_extends : respects.

(** ** The schema *)

Section Schema.
Context `{Host}.

Lemma zod_check_one_issue (t : ZodType) (v : jsval) :
  zod_check t v = [] \/ exists c, zod_check t v = [c].
Proof.
  induction t as [| | |t IH]; cbn.
  - destruct v; eauto.
  - destruct v; eauto.
  - destruct (new_Date_valid v); eauto.
  - destruct v; auto.
Qed.

(** The issues of an object are the failing fields of the shape, each once
    and in the order of the shape. *)
Lemma z_object_check_paths (shape : list (string * ZodType))
    (fields : list (string * jsval)) :
  map path (z_object_check shape (JObj fields))
  = map (fun kt => [fst kt]) (List.filter (field_fails fields) shape).
Proof.
  unfold z_object_check.
  induction shape as [|[k t] shape IH]; [reflexivity|].
  cbn [flat_map List.filter fst snd]. rewrite map_app, IH.
  unfold field_fails at 2. cbn [fst snd].
  destruct (zod_check_one_issue t (js_get k fields)) as [E|[c E]]; rewrite E;
    reflexivity.
Qed.

Lemma BlogSchema_as_declared :
  BlogSchema = map (fun e => (fst e, zod_of (snd e))) spec_fields.
Proof. reflexivity. Qed.

Lemma new_Date_valid_reads (v : jsval) : new_Date_valid v = reads_as_date v.
Proof.
  destruct v as [| | |n| |[t|]| |]; try reflexivity. cbn.
  destruct (Z.leb_spec (Z.abs n) 8640000000000000);
    destruct (Z.leb_spec (-8640000000000000) n);
    destruct (Z.leb_spec n 8640000000000000); cbn; auto; lia.
Qed.

(** The check of the code and the reading of the specification agree on
    every declared field and every value. *)
Lemma field_fails_declared (fields : list (string * jsval)) (k : string)
    (d : declared_type) (required : bool) :
  field_fails fields (k, zod_of (d, required))
  = negb (spec_field_ok d required (js_get k fields)).
Proof.
  unfold field_fails, zod_of. cbn [fst snd].
  destruct d, required; cbn [zod_check];
    try rewrite new_Date_valid_reads;
    destruct (js_get k fields) as [| | |n| |[t|]| |]; cbn;
    try reflexivity;
    try rewrite new_Date_valid_reads; cbn;
    match goal with
    | |- context [if ?b then _ else _] => destruct b; reflexivity
    | _ => idtac
    end.
Qed.

Lemma filter_map_comm {A B} (f : B -> bool) (g : A -> B) (l : list A) :
  List.filter f (map g l) = map g (List.filter (fun a => f (g a)) l).
Proof.
  induction l as [|a l IH]; [reflexivity|]. cbn. destruct (f (g a)); cbn;
    rewrite IH; reflexivity.
Qed.

(** The paths of the issues are the failing fields of the specification. *)
Lemma z_object_check_failing_keys (fields : list (string * jsval)) :
  map path (z_object_check BlogSchema (JObj fields))
  = map (fun k => [k]) (failing_keys fields).
Proof.
  rewrite z_object_check_paths, BlogSchema_as_declared, filter_map_comm.
  unfold failing_keys. rewrite !map_map.
  rewrite (List.filter_ext
             (fun a => field_fails fields (fst a, zod_of (snd a)))
             (fun e => negb (spec_field_ok (fst (snd e)) (snd (snd e))
                                           (js_get (fst e) fields)))).
  - reflexivity.
  - intros [k [d r]]. apply field_fails_declared.
Qed.

Lemma concat_one (sep x : string) : String.concat sep [x] = x.
Proof. reflexivity. Qed.

(** Issues that sit at single keys print as one line per key. *)
Lemma report_lines (issues : list ZodIssue) :
  forall ks, map path issues = map (fun k => [k]) ks ->
             map format_issue issues
             = zip_with report_line ks (map message issues).
Proof.
  induction issues as [|i issues IH]; intros [|k ks] E; try discriminate;
    [reflexivity|].
  cbn in E. injection E as Ei E. cbn [map zip_with]. rewrite (IH ks E).
  unfold format_issue at 1. rewrite Ei, concat_one. reflexivity.
Qed.

End Schema.

(** ** The validator *)

Section Validator.
Context `{Host}.

Lemma validateFrontmatter_run (filePath : string) (w : World) :
  validateFrontmatter filePath w =
  match vault_read w filePath with
  | inl _ => (Returned false, w)
  | inr content =>
      match matter content with
      | inl _ => (Returned false, w)
      | inr data =>
          match z_object_check BlogSchema data with
          | [] => (Returned true, w)
          | i :: rest => (Returned false, report (i :: rest) w)
          end
      end
  end.
Proof.
  unfold validateFrontmatter, adapter_read, try_catch, bind, get, answer.
  destruct (vault_read w filePath) as [msg|content]; [reflexivity|].
  cbn. destruct (matter content) as [msg|data]; [reflexivity|].
  cbn. unfold z_parse.
  destruct (z_object_check BlogSchema data); reflexivity.
Qed.

Lemma validateFrontmatter_fst (filePath : string) (w : World) :
  fst (validateFrontmatter filePath w)
  = Returned (file_valid (vault_read w) filePath).
Proof.
  rewrite validateFrontmatter_run. unfold file_valid.
  destruct (vault_read w filePath) as [msg|content]; [reflexivity|].
  destruct (matter content) as [msg|data]; [reflexivity|].
  destruct (z_object_check BlogSchema data); reflexivity.
Qed.

Lemma validateFrontmatter_adds (filePath : string) :
  respects adds_notices (validateFrontmatter filePath).
Proof.
  intros w. rewrite validateFrontmatter_run.
  destruct (vault_read w filePath) as [msg|content]; [reflexivity|].
  destruct (matter content) as [msg|data]; [reflexivity|].
  destruct (z_object_check BlogSchema data); [reflexivity|].
  eexists. reflexivity.
Qed.

Lemma validateFrontmatter_valid (filePath : string) (w : World) :
  file_valid (vault_read w) filePath = true ->
  validateFrontmatter filePath w = (Returned true, w).
Proof.
  rewrite validateFrontmatter_run. unfold file_valid.
  destruct (vault_read w filePath) as [msg|content]; [discriminate|].
  destruct (matter content) as [msg|data]; [discriminate|].
  destruct (z_object_check BlogSchema data); [reflexivity|discriminate].
Qed.

(** C10.  [validateFrontmatter] returns a boolean on every path and in every
    world and never throws: an unreadable file, unparseable front matter and
    a schema violation each give [false], anything else gives [true]. *)
Theorem validateFrontmatter_total (filePath : string) (w : World) :
  (exists b, fst (validateFrontmatter filePath w) = Returned b) /\
  (forall msg,
     vault_read w filePath = inl msg ->
     validateFrontmatter filePath w = (Returned false, w)) /\
  (forall content msg,
     vault_read w filePath = inr content -> matter content = inl msg ->
     validateFrontmatter filePath w = (Returned false, w)) /\
  (forall content data,
     vault_read w filePath = inr content -> matter content = inr data ->
     z_object_check BlogSchema data <> [] ->
     validateFrontmatter filePath w
     = (Returned false, report (z_object_check BlogSchema data) w)) /\
  (forall content data,
     vault_read w filePath = inr content -> matter content = inr data ->
     z_object_check BlogSchema data = [] ->
     validateFrontmatter filePath w = (Returned true, w)).
Proof.
  split; [|repeat split].
  - eexists. apply validateFrontmatter_fst.
  - intros msg E. rewrite validateFrontmatter_run, E. reflexivity.
  - intros content msg E1 E2. rewrite validateFrontmatter_run, E1, E2.
    reflexivity.
  - intros content data E1 E2 Hne. rewrite validateFrontmatter_run, E1, E2.
    destruct (z_object_check BlogSchema data); [congruence|reflexivity].
  - intros content data E1 E2 E3. rewrite validateFrontmatter_run, E1, E2, E3.
    reflexivity.
Qed.

(** C6.  One call reports every failing field.  The fields that fail are
    read off the declaration of the specification, not off the check of the
    code: a declared field fails when it is required and absent, or present
    and not of its declared type, a date being any value that reads as one
    ([reads_as_date]).  The issues of an item sit at exactly those
    fields, once each, in the order of the declaration; the call shows all of
    them in its one notice, a line per field that begins with the name of the
    field, and returns [false]; with no failing field it returns [true] and
    shows nothing.  An item that lacks exactly two required fields, its other
    fields in order, gets exactly two issues, one at each.  Front matter that
    is not an object at all is one failure, with no field to name. *)
Theorem validate_reports_every_failing_field (fields : list (string * jsval)) :
  map path (z_object_check BlogSchema (JObj fields))
  = map (fun k => [k]) (failing_keys fields) /\
  (forall filePath w content,
     vault_read w filePath = inr content ->
     matter content = inr (JObj fields) ->
     (failing_keys fields = [] ->
      validateFrontmatter filePath w = (Returned true, w)) /\
     (failing_keys fields <> [] ->
      exists msgs,
        length msgs = length (failing_keys fields) /\
        validateFrontmatter filePath w =
        (Returned false,
         with_notices
           (notices w
            ++ [mkNotice
                  ("Validation failed:" +:+ nl
                   +:+ String.concat nl
                         (zip_with report_line (failing_keys fields) msgs))
                  (Some 8000%Z)])
           w))) /\
  (forall k1 d1 k2 d2,
     In (k1, (d1, true)) spec_fields -> In (k2, (d2, true)) spec_fields ->
     k1 <> k2 ->
     js_get k1 fields = JUndefined -> js_get k2 fields = JUndefined ->
     (forall k d required,
        In (k, (d, required)) spec_fields -> k <> k1 -> k <> k2 ->
        spec_field_ok d required (js_get k fields) = true) ->
     length (z_object_check BlogSchema (JObj fields)) = 2 /\
     (failing_keys fields = [k1; k2] \/ failing_keys fields = [k2; k1])) /\
  (forall filePath w content data,
     vault_read w filePath = inr content ->
     matter content = inr data ->
     (forall other, data <> JObj other) ->
     exists msg,
       validateFrontmatter filePath w =
       (Returned false,
        with_notices
          (notices w
           ++ [mkNotice ("Validation failed:" +:+ nl +:+ report_line EmptyString msg)
                        (Some 8000%Z)])
          w)).
Proof.
  pose proof (z_object_check_failing_keys fields) as Hpaths.
  split; [exact Hpaths|]. split; [|split].
  - intros filePath w content E1 E2. split.
    + intros Hnone. rewrite Hnone in Hpaths.
      rewrite validateFrontmatter_run, E1, E2.
      destruct (z_object_check BlogSchema (JObj fields)); [reflexivity|discriminate].
    + intros Hsome. exists (map message (z_object_check BlogSchema (JObj fields))).
      split.
      * rewrite length_map, <- (length_map path), Hpaths, length_map. reflexivity.
      * rewrite validateFrontmatter_run, E1, E2.
        rewrite <- (report_lines _ _ Hpaths).
        destruct (z_object_check BlogSchema (JObj fields)) as [|i rest] eqn:Ei.
        { destruct (failing_keys fields); [congruence|discriminate]. }
        reflexivity.
  - intros k1 d1 k2 d2 H1 H2 Hne U1 U2 Hrest.
    rewrite <- (length_map path), Hpaths, length_map.
    assert (forall k d, In (k, (d, true)) spec_fields -> k = k1 \/ k = k2 ->
                        spec_field_ok d true (js_get k fields) = false) as Hmiss.
    { intros k d _ [->| ->]; [rewrite U1|rewrite U2]; reflexivity. }
    unfold failing_keys, spec_fields in *. cbn [List.filter fst snd].
    cbn [In] in H1, H2.
    destruct H1 as [E1|[E1|[E1|[E1|[E1|[E1|[]]]]]]]; try discriminate;
      injection E1 as <- <-;
      destruct H2 as [E2|[E2|[E2|[E2|[E2|[E2|[]]]]]]]; try discriminate;
      injection E2 as <- <-;
      try congruence;
      repeat match goal with
      | |- context [spec_field_ok ?d ?r (js_get ?k fields)] =>
          first
            [ rewrite (Hmiss k d) by (cbn; auto 10)
            | rewrite (Hrest k d r) by (cbn; first [auto 10 | discriminate]) ]
      end;
      cbn; auto.
  - intros filePath w content data E1 E2 Hobj.
    rewrite validateFrontmatter_run, E1, E2.
    destruct data; try (eexists; reflexivity).
    destruct (Hobj fields0 eq_refl).
Qed.

End Validator.

(** *** The validator on the fixtures *)

Lemma validateFrontmatter_total_witness :
  validateFrontmatter "Notes/missing.md" w_unlinked = (Returned false, w_unlinked) /\
  validateFrontmatter "Blog/broken.md" w_unlinked = (Returned false, w_unlinked) /\
  fst (validateFrontmatter "Blog-drafts/x.md" w_unlinked) = Returned false /\
  validateFrontmatter "Blog/hello.md" w_unlinked = (Returned true, w_unlinked).
Proof.
  destruct (validateFrontmatter_total "Notes/missing.md" w_unlinked)
    as (_ & Hread & _).
  destruct (validateFrontmatter_total "Blog/broken.md" w_unlinked)
    as (_ & _ & Hyaml & _).
  destruct (validateFrontmatter_total "Blog-drafts/x.md" w_unlinked)
    as (_ & _ & _ & Hschema & _).
  destruct (validateFrontmatter_total "Blog/hello.md" w_unlinked)
    as (_ & _ & _ & _ & Hok).
  split; [|split; [|split]].
  - eapply Hread. reflexivity.
  - eapply Hyaml; reflexivity.
  - erewrite Hschema; [reflexivity|reflexivity|reflexivity|].
    vm_compute. discriminate.
  - eapply Hok; [reflexivity|reflexivity|]. vm_compute. reflexivity.
Defined.

(** The post with only a [pubDate] lacks [title] and [description]: the two
    fail by the declaration, two issues are raised, and the call shows both. *)
Lemma validate_reports_every_failing_field_witness :
  failing_keys [("pubDate", JDate (Some new_year_2024))] = ["title"; "description"] /\
  length (z_object_check BlogSchema
            (JObj [("pubDate", JDate (Some new_year_2024))])) = 2 /\
  fst (validateFrontmatter "Blog-drafts/x.md" w_unlinked) = Returned false /\
  validateFrontmatter "Blog/hello.md" w_unlinked = (Returned true, w_unlinked).
Proof.
  destruct (validate_reports_every_failing_field
              [("pubDate", JDate (Some new_year_2024))]) as (_ & Hcall & Htwo & _).
  destruct (validate_reports_every_failing_field
              [("title", JStr "Hello"); ("description", JStr "First post");
               ("pubDate", JDate (Some new_year_2024))]) as (_ & Hgood & _).
  assert (failing_keys [("pubDate", JDate (Some new_year_2024))]
          = ["title"; "description"]) as Hkeys by (vm_compute; reflexivity).
  split; [exact Hkeys|]. split; [|split].
  - apply (Htwo "title" declared_string "description" declared_string).
    + cbn. auto.
    + cbn. auto.
    + discriminate.
    + reflexivity.
    + reflexivity.
    + intros k d required Hin Hk1 Hk2. cbn in Hin.
      destruct Hin as [E|[E|[E|[E|[E|[E|[]]]]]]]; injection E as <- <- <-;
        first [congruence | reflexivity].
  - destruct (Hcall "Blog-drafts/x.md" w_unlinked post_dated_only eq_refl eq_refl)
      as [_ Hshown].
    destruct Hshown as (msgs & _ & ->); [rewrite Hkeys; discriminate|].
    reflexivity.
  - destruct (Hgood "Blog/hello.md" w_unlinked post_complete eq_refl eq_refl)
      as [Hquiet _].
    apply Hquiet. vm_compute. reflexivity.
Defined.

(** The notice of that call, as it is shown. *)
Example validation_notice_of_the_draft :
  notices (snd (validateFrontmatter "Blog-drafts/x.md" w_unlinked))
  = [mkNotice ("Validation failed:" +:+ nl +:+ "title: Required" +:+ nl
               +:+ "description: Required") (Some 8000%Z)].
Proof. vm_compute. reflexivity. Qed.

(** A title that is a number, a date that is not one and a flag that is a
    text fail; [null] and a number pass as dates, since the schema coerces. *)
Example failing_keys_of_mistyped_fields :
  failing_keys [("title", JNum 123); ("description", JStr "First post");
                ("pubDate", JStr "tomorrow"); ("updatedDate", JNull);
                ("heroImage", JNull); ("published", JStr "yes")]
  = ["title"; "pubDate"; "heroImage"; "published"] /\
  map path (z_object_check BlogSchema
              (JObj [("title", JNum 123); ("description", JStr "First post");
                     ("pubDate", JStr "tomorrow"); ("updatedDate", JNull);
                     ("heroImage", JNull); ("published", JStr "yes")]))
  = [["title"]; ["pubDate"]; ["heroImage"]; ["published"]].
Proof. split; vm_compute; reflexivity. Qed.

(** ** The publish flow *)

Ltac respects_steps :=
  repeat first
    [ apply respects_bind; [typeclasses eauto| |intros ?]
    | apply respects_try_catch; [typeclasses eauto| |intros ?]
    | apply respects_if
    | solve [eauto with respects typeclass_instances] ].

Lemma prefix_app (s t : string) : String.prefix s (s +:+ t) = true.
Proof.
  induction s as [|a s IH].
  - destruct t; reflexivity.
  - change (String a s +:+ t) with (String a (s +:+ t)). simpl.
    destruct (ascii_dec a a) as [_|Hne]; [exact IH|congruence].
Qed.

Lemma try_catch_after_notice {A} (text : string) (duration : option Z)
    (k : unit -> Async A) (h : exn -> Async A) (w : World) :
  try_catch (bind (new_Notice text duration) k) h w
  = try_catch (k tt) h (with_notices (notices w ++ [mkNotice text duration]) w).
Proof. reflexivity. Qed.

Section PublishFlow.
Context `{Host}.

Lemma validate_files_adds (files : list TFile) :
  respects adds_notices (validate_files files).
Proof.
  induction files as [|file rest IH]; cbn [validate_files].
  - apply respects_ret; typeclasses eauto.
  - apply respects_bind; [typeclasses eauto|apply validateFrontmatter_adds|].
    intros valid. destruct valid; [exact IH|]. respects_steps.
Qed.

Lemma validate_files_quiet (files : list TFile) (w : World) :
  (forall f, In f files -> file_valid (vault_read w) (file_path f) = true) ->
  validate_files files w = (Returned true, w).
Proof.
  induction files as [|file rest IH]; intros Hall; [reflexivity|].
  cbn [validate_files]. unfold bind.
  rewrite (validateFrontmatter_valid (file_path file) w) by (apply Hall; left; auto).
  apply IH. intros f Hf. apply Hall. right. exact Hf.
Qed.

(** The loop stops at the first file that fails, after the report of that
    file, with the notice that names it. *)
Lemma validate_files_blocked (files : list TFile) :
  forall (w : World) (f : TFile),
    In f files -> file_valid (vault_read w) (file_path f) = false ->
    exists culprit extra,
      In culprit files /\
      file_valid (vault_read w) (file_path culprit) = false /\
      validate_files files w =
      (Returned false,
       with_notices
         (notices w ++ extra
          ++ [mkNotice ("Validation failed for " +:+ file_name culprit) None])
         w).
Proof.
  induction files as [|file rest IH]; intros w f Hin Hbad; [destruct Hin|].
  cbn [validate_files]. unfold bind.
  pose proof (validateFrontmatter_fst (file_path file) w) as Hfst.
  pose proof (validateFrontmatter_adds (file_path file) w) as [shown Hw].
  destruct (validateFrontmatter (file_path file) w) as [r w1].
  cbn [fst snd] in *. subst r w1.
  destruct (file_valid (vault_read w) (file_path file)) eqn:Hfile.
  - destruct Hin as [->|Hin]; [congruence|].
    destruct (IH (with_notices (notices w ++ shown) w) f Hin Hbad)
      as (culprit & extra & Hc & Hcbad & ->).
    exists culprit, (shown ++ extra). split; [right; exact Hc|].
    split; [exact Hcbad|]. cbn. rewrite !app_assoc. reflexivity.
  - exists file, shown. split; [left; reflexivity|]. split; [exact Hfile|].
    cbn. rewrite app_assoc. reflexivity.
Qed.

Lemma updateBlog_unconfigured (w : World) :
  git w = None -> updateBlog w = (Returned tt, notify "Git not configured" w).
Proof. intros Hg. unfold updateBlog. run. rewrite Hg. reflexivity. Qed.

Lemma updateBlog_blocked (w : World) (g : SimpleGit) (f : TFile) :
  git w = Some g ->
  In f (content_files w) ->
  file_valid (vault_read w) (file_path f) = false ->
  exists culprit extra,
    In culprit (content_files w) /\
    file_valid (vault_read w) (file_path culprit) = false /\
    updateBlog w =
    (Returned tt,
     with_notices
       (notices w ++ mkNotice "Updating blog..." None :: extra
        ++ [mkNotice ("Validation failed for " +:+ file_name culprit) None])
       w).
Proof.
  intros Hg Hin Hbad.
  destruct (validate_files_blocked (content_files w) (notify "Updating blog..." w)
              f Hin Hbad) as (culprit & extra & Hc & Hcbad & E).
  exists culprit, extra. split; [exact Hc|]. split; [exact Hcbad|].
  unfold updateBlog. run. rewrite Hg. run. unfold new_Notice at 1.
  change (content_files (with_notices _ w)) with (content_files w).
  fold (notify "Updating blog..." w). rewrite E. cbn.
  rewrite <- app_assoc. reflexivity.
Qed.

Lemma updateBlog_no_changes (w : World) (g : SimpleGit) (status : StatusResult) :
  git w = Some g ->
  (forall f, In f (content_files w) ->
             file_valid (vault_read w) (file_path f) = true) ->
  add_answer g (contentFolder (settings w) +:+ "/*") = inr tt ->
  status_answer g = inr status ->
  no_changes status = true ->
  updateBlog w =
  (Returned tt,
   notify "No changes to commit"
     (with_git_calls
        (git_calls w ++ [GitAdd (contentFolder (settings w) +:+ "/*"); GitStatus])
        (notify "Updating blog..." w))).
Proof.
  intros Hg Hall Hadd Hstatus Hnone.
  unfold updateBlog. run. rewrite Hg. run. unfold new_Notice at 1.
  change (content_files (with_notices _ w)) with (content_files w).
  fold (notify "Updating blog..." w).
  rewrite (validate_files_quiet (content_files w) (notify "Updating blog..." w) Hall).
  unfold git_add, git_status, log_git, answer. run. cbn [settings notify with_notices].
  rewrite Hadd. cbn [outcome_rect]. rewrite Hstatus, Hnone.
  unfold notify. cbn. f_equal. f_equal. rewrite <- app_assoc. reflexivity.
Qed.

(** Whatever else it does, [updateBlog] first shows one of two notices. *)
Lemma updateBlog_opening (w : World) :
  exists first rest,
    notices (snd (updateBlog w)) = notices w ++ mkNotice first None :: rest /\
    (first = "Git not configured" \/ first = "Updating blog...").
Proof.
  destruct (git w) as [g|] eqn:Hg.
  - exists "Updating blog...".
    assert (extends_notices (notify "Updating blog..." w) (snd (updateBlog w)))
      as [rest E].
    { unfold updateBlog. unfold bind at 1, get at 1. rewrite Hg.
      rewrite try_catch_after_notice. unfold notify.
      match goal with
      | |- extends_notices ?w0 (snd (try_catch ?body ?handler ?w0)) =>
          apply (respects_try_catch extends_notices body handler)
      end.
      - unfold git_add, git_status, git_commit, git_push. respects_steps.
        intros w0. apply adds_extends. apply validate_files_adds.
      - intros e. respects_steps. }
    exists rest. split; [|right; reflexivity].
    rewrite E. cbn. rewrite <- app_assoc. reflexivity.
  - exists "Git not configured", []. rewrite (updateBlog_unconfigured w Hg).
    split; [reflexivity|left; reflexivity].
Qed.

(** C1.  Once the secret has passed, one content item that fails validation
    is enough for the attempt to end without a single call to the
    version-control client: no add, no status, no commit, no push. *)
Theorem invalid_item_blocks_version_control
    (password_input : string) (w : World) (f : TFile) :
  password_input <> EmptyString ->
  password_input = password (settings w) ->
  In f (content_files w) ->
  fst (validateFrontmatter (file_path f) w) = Returned false ->
  fst (submit password_input w) = Returned tt /\
  git_calls (snd (submit password_input w)) = git_calls w /\
  git_calls (snd (updateBlog w)) = git_calls w.
Proof.
  intros Hne Hpw Hin Hbad.
  rewrite validateFrontmatter_fst in Hbad.
  assert (file_valid (vault_read w) (file_path f) = false) as Hf
    by (destruct (file_valid (vault_read w) (file_path f)); congruence).
  assert (forall w0, git w0 = git w -> content_files w0 = content_files w ->
                     vault_read w0 = vault_read w ->
                     fst (updateBlog w0) = Returned tt /\
                     git_calls (snd (updateBlog w0)) = git_calls w0) as Hblocked.
  { intros w0 Eg Ec Er. destruct (git w0) as [g|] eqn:Hg.
    - rewrite <- Ec in Hin. rewrite <- Er in Hf.
      destruct (updateBlog_blocked w0 g f Hg Hin Hf) as (c & extra & _ & _ & ->).
      split; reflexivity.
    - rewrite (updateBlog_unconfigured w0 Hg). split; reflexivity. }
  unfold submit. apply String.eqb_neq in Hne. rewrite Hne. run.
  subst password_input. rewrite String.eqb_refl. run. unfold modal_close.
  destruct (Hblocked (with_modal_open false w)) as [E1 E2]; try reflexivity.
  destruct (Hblocked w) as [_ E3]; try reflexivity.
  rewrite E1, E2, E3. split; [|split]; reflexivity.
Qed.

(** C3.  [submit] goes on to [updateBlog] exactly when the entered password
    is non-empty and equal to the configured one.  An empty entry is turned
    away whatever is configured, an empty configured password included, and
    a wrong entry as well; either way one notice is all that happens. *)
Theorem submit_gate (password_input : string) (w : World) :
  (submit password_input w = (modal_close ;; updateBlog) w <->
   password_input <> EmptyString /\ password_input = password (settings w)) /\
  (password_input = EmptyString ->
   submit password_input w = (Returned tt, notify "Enter password" w)) /\
  (password_input <> EmptyString ->
   password_input <> password (settings w) ->
   submit password_input w = (Returned tt, notify "Incorrect password" w)).
Proof.
  assert (forall text,
            text <> "Git not configured" -> text <> "Updating blog..." ->
            (Returned tt, notify text w) <> (modal_close ;; updateBlog) w)
    as Hdiffer.
  { intros text H1 H2 E. apply (f_equal (fun r => notices (snd r))) in E.
    unfold bind, modal_close in E. cbn [snd notify with_notices notices] in E.
    destruct (updateBlog_opening (with_modal_open false w))
      as (first & rest & Eopen & Hfirst).
    rewrite Eopen in E. cbn [with_modal_open notices] in E.
    apply app_inv_head in E. injection E as E _.
    destruct Hfirst; congruence. }
  assert (password_input = EmptyString ->
          submit password_input w = (Returned tt, notify "Enter password" w))
    as Hempty.
  { intros ->. reflexivity. }
  assert (password_input <> EmptyString ->
          password_input <> password (settings w) ->
          submit password_input w = (Returned tt, notify "Incorrect password" w))
    as Hwrong.
  { intros Hne Hpw. unfold submit. apply String.eqb_neq in Hne, Hpw.
    rewrite Hne. run. rewrite Hpw. reflexivity. }
  split; [|split; assumption].
  split.
  - intros E.
    destruct (String.eqb_spec password_input EmptyString) as [He|Hne].
    { rewrite (Hempty He) in E. apply Hdiffer in E; [destruct E| |]; discriminate. }
    destruct (String.eqb_spec password_input (password (settings w))) as [Hp|Hp];
      [auto|].
    rewrite (Hwrong Hne Hp) in E. apply Hdiffer in E; [destruct E| |]; discriminate.
  - intros [Hne Hp]. unfold submit. apply String.eqb_neq in Hne. rewrite Hne.
    run. rewrite <- Hp, String.eqb_refl. reflexivity.
Qed.

(** C5.  When every content item is valid, staging succeeds and the status
    lists nothing as modified, created or deleted, the flow returns after the
    "No changes to commit" notice; the only calls made are the add and the
    status, so there is no commit and no push. *)
Theorem no_changes_is_success (w : World) (g : SimpleGit) (status : StatusResult) :
  git w = Some g ->
  (forall f, In f (content_files w) ->
             fst (validateFrontmatter (file_path f) w) = Returned true) ->
  add_answer g (contentFolder (settings w) +:+ "/*") = inr tt ->
  status_answer g = inr status ->
  modified status = [] -> created status = [] -> deleted status = [] ->
  fst (updateBlog w) = Returned tt /\
  notices (snd (updateBlog w))
  = notices w ++ [mkNotice "Updating blog..." None;
                  mkNotice "No changes to commit" None] /\
  git_calls (snd (updateBlog w))
  = git_calls w ++ [GitAdd (contentFolder (settings w) +:+ "/*"); GitStatus] /\
  List.filter is_vcs_write (git_calls (snd (updateBlog w)))
  = List.filter is_vcs_write (git_calls w).
Proof.
  intros Hg Hall Hadd Hstatus Hm Hc Hd.
  assert (no_changes status = true) as Hnone
    by (unfold no_changes; rewrite Hm, Hc, Hd; reflexivity).
  assert (forall f, In f (content_files w) ->
                    file_valid (vault_read w) (file_path f) = true) as Hvalid.
  { intros f Hf. specialize (Hall f Hf). rewrite validateFrontmatter_fst in Hall.
    congruence. }
  rewrite (updateBlog_no_changes w g status Hg Hvalid Hadd Hstatus Hnone).
  cbn [fst snd notify with_notices with_git_calls notices git_calls].
  split; [reflexivity|]. split; [rewrite <- app_assoc; reflexivity|].
  split; [reflexivity|].
  rewrite List.filter_app. cbn. apply app_nil_r.
Qed.

(** C9.  The items of an attempt are the markdown files whose path begins
    with the link name as a string: a file whose path is the link name
    followed by anything, a sibling folder such as [Blog-drafts/] included, is
    among them, and when it fails validation the attempt ends at a
    "Validation failed for" notice without any call to the client. *)
Theorem prefix_enumeration (w : World) (f : TFile) (suffix : string) :
  In f (markdownFiles w) ->
  file_path f = symlinkName (settings w) +:+ suffix ->
  (forall f', In f' (content_files w) <->
              In f' (markdownFiles w) /\
              String.prefix (symlinkName (settings w)) (file_path f') = true) /\
  In f (content_files w) /\
  (forall g,
     git w = Some g ->
     fst (validateFrontmatter (file_path f) w) = Returned false ->
     git_calls (snd (updateBlog w)) = git_calls w /\
     exists culprit shown,
       In culprit (content_files w) /\
       fst (validateFrontmatter (file_path culprit) w) = Returned false /\
       notices (snd (updateBlog w))
       = notices w ++ shown
         ++ [mkNotice ("Validation failed for " +:+ file_name culprit) None]).
Proof.
  intros Hin Hpath.
  assert (forall f', In f' (content_files w) <->
                     In f' (markdownFiles w) /\
                     String.prefix (symlinkName (settings w)) (file_path f') = true)
    as Hsel by (intros f'; unfold content_files; apply List.filter_In).
  assert (In f (content_files w)) as Hf.
  { apply Hsel. split; [exact Hin|]. rewrite Hpath. apply prefix_app. }
  split; [exact Hsel|]. split; [exact Hf|].
  intros g Hg Hbad. rewrite validateFrontmatter_fst in Hbad.
  assert (file_valid (vault_read w) (file_path f) = false) as Hfv
    by (destruct (file_valid (vault_read w) (file_path f)); congruence).
  destruct (updateBlog_blocked w g f Hg Hf Hfv)
    as (culprit & extra & Hc & Hcbad & ->).
  split; [reflexivity|].
  exists culprit, (mkNotice "Updating blog..." None :: extra).
  split; [exact Hc|]. split.
  - rewrite validateFrontmatter_fst, Hcbad. reflexivity.
  - reflexivity.
Qed.

End PublishFlow.

(** *** The publish flow on the fixtures *)

Lemma invalid_item_blocks_version_control_witness :
  fst (submit "hunter2" w_with_draft) = Returned tt /\
  git_calls (snd (submit "hunter2" w_with_draft)) = [] /\
  git_calls (snd (updateBlog w_with_draft)) = [].
Proof.
  apply (invalid_item_blocks_version_control "hunter2" w_with_draft draft_md).
  - discriminate.
  - reflexivity.
  - vm_compute. auto.
  - vm_compute. reflexivity.
Defined.

Lemma submit_gate_witness :
  submit "hunter2" w_with_draft = (modal_close ;; updateBlog) w_with_draft /\
  submit EmptyString (demo_world [] (Some clean_git) linked)
    = (Returned tt, notify "Enter password" (demo_world [] (Some clean_git) linked)) /\
  submit "letmein" w_with_draft
    = (Returned tt, notify "Incorrect password" w_with_draft).
Proof.
  destruct (submit_gate "hunter2" w_with_draft) as ([_ Henter] & _ & _).
  destruct (submit_gate EmptyString (demo_world [] (Some clean_git) linked))
    as (_ & Hempty & _).
  destruct (submit_gate "letmein" w_with_draft) as (_ & _ & Hwrong).
  split; [|split].
  - apply Henter. split; [discriminate|reflexivity].
  - apply Hempty. reflexivity.
  - apply Hwrong; discriminate.
Defined.

Lemma no_changes_is_success_witness :
  fst (updateBlog w_nothing_new) = Returned tt /\
  notices (snd (updateBlog w_nothing_new))
  = [mkNotice "Updating blog..." None; mkNotice "No changes to commit" None] /\
  git_calls (snd (updateBlog w_nothing_new))
  = [GitAdd "src/content/blog/*"; GitStatus] /\
  List.filter is_vcs_write (git_calls (snd (updateBlog w_nothing_new))) = [].
Proof.
  apply (no_changes_is_success w_nothing_new clean_git (mkStatus [] [] []));
    try reflexivity.
  intros f Hf. vm_compute in Hf. destruct Hf as [<-|[]]. vm_compute. reflexivity.
Defined.

(** [Blog-drafts/x.md] is not under the link [Blog], and still blocks. *)
Lemma prefix_enumeration_witness :
  String.prefix "Blog/" (file_path draft_md) = false /\
  In draft_md (content_files w_with_draft) /\
  git_calls (snd (updateBlog w_with_draft)) = git_calls w_with_draft.
Proof.
  destruct (prefix_enumeration w_with_draft draft_md "-drafts/x.md")
    as (_ & Hin & Hblock).
  - vm_compute. auto.
  - reflexivity.
  - split; [reflexivity|]. split; [exact Hin|].
    apply (Hblock dirty_git); [reflexivity|]. vm_compute. reflexivity.
Defined.

(** * Further properties of the plugin *)

(** ** The link manager *)

Lemma resolves_insert_fresh (hops : nat) (f : gmap string node) (l : string)
    (n : node) :
  f !! l = None ->
  forall p, resolves hops f p = true -> resolves hops (<[l := n]> f) p = true.
Proof.
  intros Hl. induction hops as [|hops IH]; intros p R.
  - unfold resolves in *. destruct (f !! p) as [x|] eqn:E; [|discriminate].
    rewrite lookup_insert_ne by congruence. rewrite E. exact R.
  - rewrite resolves_unfold in *. destruct (f !! p) as [x|] eqn:E; [|discriminate].
    rewrite lookup_insert_ne by congruence. rewrite E.
    destruct x; auto.
Qed.

Lemma text_not_success_conflict (s : Settings) :
  conflict_text s <> "Blog linked successfully".
Proof. unfold conflict_text. simpl. discriminate. Qed.

Section LinkManagerMore.
Context `{Host}.

(** The four ways a call can end. *)
Lemma setupSymlink_outcomes (w : World) :
  setupSymlink w = (Returned tt, w) \/
  (exists text, text <> "Blog linked successfully" /\
                setupSymlink w = (Returned tt, notify text w)) \/
  setupSymlink w =
    (Returned tt,
     with_console (console w ++ [Error "EEXIST"])
       (notify "Failed to create link" w)) \/
  (exists root,
     adapter w = FileSystemAdapter root /\
     setupSymlink w =
     (Returned tt,
      notify "Blog linked successfully"
        (with_fs (<[linkPath_of root (settings w)
                    := Symlink (targetPath_of (settings w))]>
                  (delete (linkPath_of root (settings w)) (fs w))) w))).
Proof.
  destruct (adapter w) as [root|] eqn:Ha.
  2:{ left. apply setupSymlink_no_vault_root; auto. }
  destruct (resolves hop_limit (fs w) (targetPath_of (settings w))) eqn:Rt.
  2:{ right; left. exists "Blog folder not found". split; [discriminate|].
      apply (setupSymlink_target_missing w root); auto. }
  destruct (fs w !! linkPath_of root (settings w)) as [n|] eqn:El.
  2:{ right; right; right. exists root. split; [reflexivity|].
      rewrite (setupSymlink_fresh w root); auto. rewrite delete_id; auto. }
  destruct (resolves hop_limit (fs w) (linkPath_of root (settings w))) eqn:Rl.
  2:{ right; right; left. apply (setupSymlink_dangling w root n); auto. }
  destruct n as [| |old].
  1,2: right; left; exists (conflict_text (settings w));
       split; [apply text_not_success_conflict|];
       apply (setupSymlink_conflict w root _ Ha Rt El eq_refl).
  destruct (String.eqb_spec old (targetPath_of (settings w))) as [->|Hne].
  - left. apply (setupSymlink_current w root); auto.
  - right; right; right. exists root. split; [reflexivity|].
    apply (setupSymlink_stale w root old); auto.
Qed.

(** X1.  The link manager touches one name only: every path other than the
    link path holds after [setupSymlink], and after [removeSymlink], what it
    held before. *)
Theorem link_manager_confined (w : World) (p : string) :
  (forall root, adapter w = FileSystemAdapter root ->
                p <> linkPath_of root (settings w)) ->
  fs (snd (setupSymlink w)) !! p = fs w !! p /\
  fs (snd (removeSymlink w)) !! p = fs w !! p.
Proof.
  intros Hp. split.
  - destruct (setupSymlink_outcomes w)
      as [->|[(text & _ & ->)|[->|(root & Ha & ->)]]]; try reflexivity.
    cbn. specialize (Hp root Ha).
    rewrite lookup_insert_ne, lookup_delete_ne; congruence.
  - destruct (removeSymlink_cases w) as [->|(root & old & Ha & _ & ->)];
      [reflexivity|].
    cbn. specialize (Hp root Ha). rewrite lookup_delete_ne; congruence.
Qed.

(** X2.  The success notice and the link go together: a call that changes
    the file system at all has shown "Blog linked successfully" and left the
    link to the current target at the link path, and a call that shows that
    notice has left the link there. *)
Theorem setupSymlink_reports_what_it_did (w : World) :
  (fs (snd (setupSymlink w)) <> fs w ->
   exists root,
     adapter w = FileSystemAdapter root /\
     notices (snd (setupSymlink w))
     = notices w ++ [mkNotice "Blog linked successfully" None] /\
     fs (snd (setupSymlink w)) !! linkPath_of root (settings w)
     = Some (Symlink (targetPath_of (settings w)))) /\
  (notices (snd (setupSymlink w))
   = notices w ++ [mkNotice "Blog linked successfully" None] ->
   exists root,
     adapter w = FileSystemAdapter root /\
     fs (snd (setupSymlink w)) !! linkPath_of root (settings w)
     = Some (Symlink (targetPath_of (settings w)))).
Proof.
  destruct (setupSymlink_outcomes w)
    as [->|[(text & Htext & ->)|[->|(root & Ha & ->)]]]; cbn [snd].
  - split; [congruence|]. intros E.
    rewrite <- (app_nil_r (notices w)) in E at 1.
    apply app_inv_head in E. discriminate.
  - split; [cbn; congruence|]. cbn. intros E.
    apply app_inv_head in E. congruence.
  - split; [cbn; congruence|]. cbn. intros E.
    apply app_inv_head in E. discriminate.
  - split; intros _; exists root; cbn; rewrite lookup_insert_eq; auto.
Qed.

(** X3.  Setting the link up on a free name and removing it again gives the
    file system back, when the target resolves with a hop to spare (a
    directory always does). *)
Theorem setupSymlink_removeSymlink_round_trip (w : World) (root : string) :
  adapter w = FileSystemAdapter root ->
  fs w !! linkPath_of root (settings w) = None ->
  resolves (pred hop_limit) (fs w) (targetPath_of (settings w)) = true ->
  fs (snd ((setupSymlink ;; removeSymlink) w)) = fs w.
Proof.
  intros Ha El Rt.
  pose proof (resolves_more _ _ _ Rt) as Rt'.
  change (S (pred hop_limit)) with hop_limit in Rt'.
  unfold bind. rewrite (setupSymlink_fresh w root Ha Rt' El).
  set (l := linkPath_of root (settings w)) in *.
  set (t := targetPath_of (settings w)) in *.
  unfold removeSymlink. run. cbn [adapter notify with_notices with_fs settings fs].
  rewrite Ha. run. cbn [adapter notify with_notices with_fs settings fs].
  fold l.
  assert (resolves hop_limit (<[l:=Symlink t]> (fs w)) l = true) as ->.
  { rewrite (resolves_link _ l t) by apply lookup_insert_eq.
    apply resolves_insert_fresh; auto. }
  unfold lstatSync. cbn [fs notify with_notices with_fs].
  rewrite lookup_insert_eq.
  cbn [stats_of isSymbolicLink]. unfold fs_unlink.
  cbn [fs notify with_notices with_fs].
  rewrite lookup_insert_eq. cbn. apply delete_insert_id. exact El.
Qed.

(** X4.  The link manager keeps to the file system and the notices: neither
    call issues a git call or changes the settings, the git client or the
    modal, and [removeSymlink] shows no notice and logs nothing. *)
Theorem link_manager_keeps_to_itself (w : World) :
  (git_calls (snd (setupSymlink w)) = git_calls w /\
   settings (snd (setupSymlink w)) = settings w /\
   git (snd (setupSymlink w)) = git w /\
   modal_open (snd (setupSymlink w)) = modal_open w) /\
  (git_calls (snd (removeSymlink w)) = git_calls w /\
   settings (snd (removeSymlink w)) = settings w /\
   git (snd (removeSymlink w)) = git w /\
   modal_open (snd (removeSymlink w)) = modal_open w /\
   notices (snd (removeSymlink w)) = notices w /\
   console (snd (removeSymlink w)) = console w).
Proof.
  split.
  - destruct (setupSymlink_outcomes w)
      as [->|[(text & _ & ->)|[->|(root & _ & ->)]]]; cbn; auto.
  - destruct (removeSymlink_cases w) as [->|(root & old & _ & _ & ->)];
      cbn; repeat split; reflexivity.
Qed.

End LinkManagerMore.

Lemma link_manager_confined_witness :
  fs (snd (setupSymlink w_stale_live)) !! "/old/src/content/blog" = Some Dir /\
  fs (snd (removeSymlink w_stale_live)) !! "/site/src/content/blog" = Some Dir.
Proof.
  split.
  - apply (link_manager_confined w_stale_live "/old/src/content/blog").
    intros root Ha. injection Ha as <-. vm_compute. discriminate.
  - apply (link_manager_confined w_stale_live "/site/src/content/blog").
    intros root Ha. injection Ha as <-. vm_compute. discriminate.
Defined.

Lemma setupSymlink_reports_what_it_did_witness :
  exists root,
    adapter w_unlinked = FileSystemAdapter root /\
    fs (snd (setupSymlink w_unlinked)) !! linkPath_of root (settings w_unlinked)
    = Some (Symlink (targetPath_of (settings w_unlinked))).
Proof.
  destruct (setupSymlink_reports_what_it_did w_unlinked) as [_ Hshown].
  apply Hshown. vm_compute. reflexivity.
Defined.

Lemma setupSymlink_removeSymlink_round_trip_witness :
  fs (snd ((setupSymlink ;; removeSymlink) w_unlinked)) = fs w_unlinked.
Proof.
  apply (setupSymlink_removeSymlink_round_trip w_unlinked "/vault").
  - reflexivity.
  - vm_compute. reflexivity.
  - vm_compute. reflexivity.
Defined.

(** ** The publish flow *)

Lemma forallb_false_In {A} (f : A -> bool) (l : list A) :
  forallb f l = false -> exists x, In x l /\ f x = false.
Proof.
  induction l as [|a l IH]; [discriminate|]. cbn [forallb].
  destruct (f a) eqn:Fa; cbn [andb].
  - intros E. destruct (IH E) as (x & Hx & Fx). exists x. split; [right|]; auto.
  - intros _. exists a. split; [left|]; auto.
Qed.

#[export] Instance keeps_configuration_preorder : PreOrder keeps_configuration.
Proof.
  split.
  - intros w. repeat split.
  - intros w1 w2 w3 (A1 & A2 & A3 & A4 & A5 & A6)
      (B1 & B2 & B3 & B4 & B5 & B6).
    unfold keeps_configuration. rewrite B1, B2, B3, B4, B5, B6. auto 10.
Qed.

Lemma adds_keeps (w w' : World) : adds_notices w w' -> keeps_configuration w w'.
Proof. intros [extra ->]. repeat split. Qed.

Lemma new_Notice_keeps (text : string) (duration : option Z) :
  respects keeps_configuration (new_Notice text duration).
Proof. intros w. repeat split. Qed.

Lemma console_error_keeps (e : exn) : respects keeps_configuration (console_error e).
Proof. intros w. repeat split. Qed.

Lemma log_git_keeps (c : GitCall) : respects keeps_configuration (log_git c).
Proof. intros w. repeat split. Qed.

Lemma modal_close_keeps : respects keeps_configuration modal_close.
Proof. intros w. repeat split. Qed.

#[export] Hint Resolve new_Notice_keeps console_error_keeps log_git_keeps
  modal_close_keeps : respects.

(** A [try] whose handler returns, returns. *)
Lemma try_catch_returns (m : Async unit) (h : exn -> Async unit) (w : World) :
  (forall e w', fst (h e w') = Returned tt) ->
  fst (try_catch m h w) = Returned tt.
Proof.
  intros Hh. unfold try_catch. destruct (m w) as [[[]|e] w']; [reflexivity|].
  apply Hh.
Qed.

Ltac publish_start w Hg Hall :=
  unfold updateBlog; run; rewrite Hg; run; unfold new_Notice at 1;
  change (content_files (with_notices _ w)) with (content_files w);
  fold (notify "Updating blog..." w);
  rewrite (validate_files_quiet (content_files w) (notify "Updating blog..." w) Hall);
  unfold git_add, git_status, git_commit, git_push, log_git, answer; run;
  cbn [settings clock notify with_notices with_git_calls].

Ltac world_fields :=
  cbn [fst snd settings clock git_calls notices console notify with_notices
       with_git_calls with_console].

Section PublishFlowMore.
Context `{Host}.

Lemma all_valid_fst (w : World) :
  (forall f, In f (content_files w) ->
             fst (validateFrontmatter (file_path f) w) = Returned true) ->
  forall f, In f (content_files w) ->
            file_valid (vault_read w) (file_path f) = true.
Proof.
  intros Hall f Hf. specialize (Hall f Hf).
  rewrite validateFrontmatter_fst in Hall. congruence.
Qed.

(** X5.  [updateBlog] and [submit] never throw: whatever the git client
    answers, an error is caught inside the flow and the call returns. *)
Theorem publish_never_throws (password_input : string) (w : World) :
  fst (updateBlog w) = Returned tt /\
  fst (submit password_input w) = Returned tt.
Proof.
  assert (forall w0, fst (updateBlog w0) = Returned tt) as Hu.
  { intros w0. unfold updateBlog. unfold bind at 1, get at 1.
    destruct (git w0) as [g|]; [|reflexivity].
    apply try_catch_returns. intros e w'. reflexivity. }
  split; [apply Hu|].
  unfold submit. destruct (String.eqb password_input EmptyString); [reflexivity|].
  run. destruct (String.eqb password_input (password (settings w)));
    [|reflexivity].
  cbn [negb]. unfold modal_close. apply Hu.
Qed.

(** X6.  A publish that goes through: with every item valid, changes in the
    status and every call answering, the calls are add, status, commit and
    push, in that order; the commit message is "Update blog - " followed by
    the local time, no file list is given and signing is switched off; the
    notices are "Updating blog..." and "Blog updated successfully". *)
Theorem publish_goes_through (w : World) (g : SimpleGit) (status : StatusResult) :
  git w = Some g ->
  (forall f, In f (content_files w) ->
             fst (validateFrontmatter (file_path f) w) = Returned true) ->
  add_answer g (contentFolder (settings w) +:+ "/*") = inr tt ->
  status_answer g = inr status ->
  no_changes status = false ->
  commit_answer g ("Update blog - " +:+ clock w) = inr tt ->
  push_answer g = inr tt ->
  git_calls (snd (updateBlog w)) = git_calls w ++ publish_calls w /\
  notices (snd (updateBlog w))
  = notices w ++ [mkNotice "Updating blog..." None;
                  mkNotice "Blog updated successfully" None] /\
  console (snd (updateBlog w)) = console w.
Proof.
  intros Hg Hall Hadd Hstatus Hsome Hcommit Hpush.
  pose proof (all_valid_fst w Hall) as Hvalid.
  assert (exists w', updateBlog w = (Returned tt, w') /\
                     git_calls w' = git_calls w ++ publish_calls w /\
                     notices w' = notices w ++ [mkNotice "Updating blog..." None;
                                               mkNotice "Blog updated successfully" None] /\
                     console w' = console w) as (w' & -> & Hw').
  { eexists. split.
    - publish_start w Hg Hvalid.
      rewrite Hadd. cbn [outcome_rect]. rewrite Hstatus, Hsome.
      world_fields. rewrite Hcommit. cbn [outcome_rect]. rewrite Hpush.
      reflexivity.
    - world_fields. rewrite <- !app_assoc. auto. }
  exact Hw'.
Qed.

(** X7.  Whatever happens, the calls of one [updateBlog] are an initial part
    of add, status, commit, push: no commit without the add and the status
    before it, no push without the commit. *)
Theorem git_calls_in_order (w : World) :
  exists calls,
    git_calls (snd (updateBlog w)) = git_calls w ++ calls /\
    calls `prefix_of` publish_calls w.
Proof.
  destruct (git w) as [g|] eqn:Hg.
  2:{ exists []. rewrite (updateBlog_unconfigured w Hg). cbn.
      rewrite app_nil_r. split; [reflexivity|apply prefix_nil]. }
  destruct (forallb (fun f => file_valid (vault_read w) (file_path f))
                    (content_files w)) eqn:Hall.
  2:{ apply forallb_false_In in Hall as (f & Hf & Hbad).
      destruct (updateBlog_blocked w g f Hg Hf Hbad) as (c & extra & _ & _ & ->).
      exists []. cbn. rewrite app_nil_r. split; [reflexivity|apply prefix_nil]. }
  assert (forall f, In f (content_files w) ->
                    file_valid (vault_read w) (file_path f) = true) as Hvalid.
  { intros f Hf. rewrite forallb_forall in Hall. apply (Hall f Hf). }
  publish_start w Hg Hvalid. unfold publish_calls.
  destruct (add_answer g (contentFolder (settings w) +:+ "/*")) as [msg|[]].
  { exists [GitAdd (contentFolder (settings w) +:+ "/*")]. cbn.
    split; [reflexivity|]. eexists. reflexivity. }
  cbn [outcome_rect]. destruct (status_answer g) as [msg|status].
  { eexists [_; _]. cbn. rewrite <- !app_assoc.
    split; [reflexivity|]. eexists. reflexivity. }
  destruct (no_changes status).
  { eexists [_; _]. cbn. rewrite <- !app_assoc.
    split; [reflexivity|]. eexists. reflexivity. }
  world_fields.
  destruct (commit_answer g ("Update blog - " +:+ clock w)) as [msg|[]].
  { eexists [_; _; _]. cbn. rewrite <- !app_assoc.
    split; [reflexivity|]. eexists. reflexivity. }
  cbn [outcome_rect]. destruct (push_answer g) as [msg|[]].
  - eexists [_; _; _; _]. cbn. rewrite <- !app_assoc. split; reflexivity.
  - eexists [_; _; _; _]. cbn. rewrite <- !app_assoc. split; reflexivity.
Qed.

Lemma validate_files_first_failure (pre rest : list TFile) (bad : TFile)
    (w : World) :
  (forall f, In f pre -> file_valid (vault_read w) (file_path f) = true) ->
  file_valid (vault_read w) (file_path bad) = false ->
  validate_files (pre ++ bad :: rest) w =
  (Returned false,
   notify ("Validation failed for " +:+ file_name bad)
     (snd (validateFrontmatter (file_path bad) w))).
Proof.
  intros Hpre Hbad. induction pre as [|file pre IH]; cbn [app validate_files].
  - unfold bind.
    pose proof (validateFrontmatter_fst (file_path bad) w) as Hfst.
    destruct (validateFrontmatter (file_path bad) w) as [r w1].
    cbn [fst snd] in *. rewrite Hfst, Hbad. reflexivity.
  - unfold bind at 1.
    rewrite (validateFrontmatter_valid (file_path file) w)
      by (apply Hpre; left; reflexivity).
    apply IH. intros f Hf. apply Hpre. right. exact Hf.
Qed.

(** X8.  A git call that throws ends the attempt where it stands: the calls
    made are those up to the failing one, "Update failed:" with the message
    of the error is shown, the error is logged, and no call undoes what went
    before; a failed push leaves the commit made. *)
Theorem vcs_failure_is_reported (w : World) (g : SimpleGit) :
  git w = Some g ->
  (forall f, In f (content_files w) ->
             fst (validateFrontmatter (file_path f) w) = Returned true) ->
  (forall msg,
     add_answer g (contentFolder (settings w) +:+ "/*") = inl msg ->
     failed_at 1 msg w (snd (updateBlog w))) /\
  (forall msg,
     add_answer g (contentFolder (settings w) +:+ "/*") = inr tt ->
     status_answer g = inl msg ->
     failed_at 2 msg w (snd (updateBlog w))) /\
  (forall msg status,
     add_answer g (contentFolder (settings w) +:+ "/*") = inr tt ->
     status_answer g = inr status -> no_changes status = false ->
     commit_answer g ("Update blog - " +:+ clock w) = inl msg ->
     failed_at 3 msg w (snd (updateBlog w))) /\
  (forall msg status,
     add_answer g (contentFolder (settings w) +:+ "/*") = inr tt ->
     status_answer g = inr status -> no_changes status = false ->
     commit_answer g ("Update blog - " +:+ clock w) = inr tt ->
     push_answer g = inl msg ->
     failed_at 4 msg w (snd (updateBlog w))).
Proof.
  intros Hg Hall. pose proof (all_valid_fst w Hall) as Hvalid.
  assert (forall n msg w',
            updateBlog w = (Returned tt, w') ->
            git_calls w' = git_calls w ++ take n (publish_calls w) ->
            notices w' = notices w ++ [mkNotice "Updating blog..." None;
                                      mkNotice ("Update failed: " +:+ msg) None] ->
            console w' = console w ++ [Error msg] ->
            failed_at n msg w (snd (updateBlog w))) as Hfield.
  { intros n msg w' -> E1 E2 E3. repeat split; assumption. }
  split; [|split; [|split]].
  - intros msg Hadd. eapply Hfield.
    + publish_start w Hg Hvalid. rewrite Hadd. reflexivity.
    + reflexivity.
    + world_fields. rewrite <- !app_assoc. reflexivity.
    + reflexivity.
  - intros msg Hadd Hstatus. eapply Hfield.
    + publish_start w Hg Hvalid. rewrite Hadd. cbn [outcome_rect].
      rewrite Hstatus. reflexivity.
    + world_fields. rewrite <- !app_assoc. reflexivity.
    + world_fields. rewrite <- !app_assoc. reflexivity.
    + reflexivity.
  - intros msg status Hadd Hstatus Hsome Hcommit. eapply Hfield.
    + publish_start w Hg Hvalid. rewrite Hadd. cbn [outcome_rect].
      rewrite Hstatus, Hsome. world_fields. rewrite Hcommit. reflexivity.
    + world_fields. rewrite <- !app_assoc. reflexivity.
    + world_fields. rewrite <- !app_assoc. reflexivity.
    + reflexivity.
  - intros msg status Hadd Hstatus Hsome Hcommit Hpush. eapply Hfield.
    + publish_start w Hg Hvalid. rewrite Hadd. cbn [outcome_rect].
      rewrite Hstatus, Hsome. world_fields. rewrite Hcommit.
      cbn [outcome_rect]. rewrite Hpush. reflexivity.
    + world_fields. rewrite <- !app_assoc. reflexivity.
    + world_fields. rewrite <- !app_assoc. reflexivity.
    + reflexivity.
Qed.

(** X9.  The loop over the items stops at the first one that fails: the items
    after it are neither read nor reported, and the one notice the loop adds
    to those of that item's validation names that item. *)
Theorem validation_stops_at_first_failure (pre rest : list TFile) (bad : TFile)
    (w : World) :
  (forall f, In f pre ->
             fst (validateFrontmatter (file_path f) w) = Returned true) ->
  fst (validateFrontmatter (file_path bad) w) = Returned false ->
  validate_files (pre ++ bad :: rest) w =
  (Returned false,
   notify ("Validation failed for " +:+ file_name bad)
     (snd (validateFrontmatter (file_path bad) w))) /\
  validate_files (pre ++ bad :: rest) w = validate_files (pre ++ [bad]) w.
Proof.
  intros Hpre Hbad.
  assert (forall f, In f pre -> file_valid (vault_read w) (file_path f) = true)
    as Hpre'.
  { intros f Hf. specialize (Hpre f Hf). rewrite validateFrontmatter_fst in Hpre.
    congruence. }
  assert (file_valid (vault_read w) (file_path bad) = false) as Hbad'.
  { rewrite validateFrontmatter_fst in Hbad. congruence. }
  rewrite !(validate_files_first_failure pre _ bad w Hpre' Hbad').
  split; reflexivity.
Qed.

(** X10.  An item that cannot be read blocks the publish with nothing but
    "Validation failed for" and its name: the message of the read error is
    neither shown nor logged, and no git call is made. *)
Theorem unreadable_item_blocks_without_detail (w : World) (g : SimpleGit)
    (pre rest : list TFile) (bad : TFile) (msg : string) :
  git w = Some g ->
  content_files w = pre ++ bad :: rest ->
  (forall f, In f pre ->
             fst (validateFrontmatter (file_path f) w) = Returned true) ->
  vault_read w (file_path bad) = inl msg ->
  updateBlog w =
  (Returned tt,
   notify ("Validation failed for " +:+ file_name bad)
     (notify "Updating blog..." w)).
Proof.
  intros Hg Hfiles Hpre Herr.
  assert (forall f, In f pre -> file_valid (vault_read w) (file_path f) = true)
    as Hpre'.
  { intros f Hf. specialize (Hpre f Hf). rewrite validateFrontmatter_fst in Hpre.
    congruence. }
  assert (forall w0, vault_read w0 = vault_read w ->
                     validateFrontmatter (file_path bad) w0 = (Returned false, w0))
    as Hsilent.
  { intros w0 Er. rewrite validateFrontmatter_run, Er, Herr. reflexivity. }
  assert (file_valid (vault_read w) (file_path bad) = false) as Hbad.
  { pose proof (validateFrontmatter_fst (file_path bad) w) as E.
    rewrite (Hsilent w eq_refl) in E. cbn in E. congruence. }
  unfold updateBlog. run. rewrite Hg. run. unfold new_Notice at 1.
  change (content_files (with_notices _ w)) with (content_files w).
  fold (notify "Updating blog..." w). rewrite Hfiles.
  rewrite (validate_files_first_failure pre rest bad (notify "Updating blog..." w)
             Hpre' Hbad).
  rewrite (Hsilent (notify "Updating blog..." w) eq_refl). reflexivity.
Qed.

(** X11.  The publish flow leaves the configuration alone: neither
    [updateBlog] nor [submit] changes the settings, the adapter or the git
    client the plugin holds. *)
Theorem publish_flow_keeps_configuration (password_input : string) (w : World) :
  (settings (snd (updateBlog w)) = settings w /\
   adapter (snd (updateBlog w)) = adapter w /\
   git (snd (updateBlog w)) = git w) /\
  (settings (snd (submit password_input w)) = settings w /\
   adapter (snd (submit password_input w)) = adapter w /\
   git (snd (submit password_input w)) = git w).
Proof.
  assert (respects keeps_configuration updateBlog) as Hu.
  { unfold updateBlog. apply respects_bind; [typeclasses eauto| |].
    { apply respects_get; typeclasses eauto. }
    intros [g|]; [|apply new_Notice_keeps].
    unfold git_add, git_status, git_commit, git_push.
    respects_steps.
    intros w0. apply adds_keeps. apply validate_files_adds. }
  assert (respects keeps_configuration (submit password_input)) as Hs.
  { unfold submit. apply respects_if; [apply new_Notice_keeps|].
    apply respects_bind; [typeclasses eauto| |intros s].
    { apply respects_get; typeclasses eauto. }
    apply respects_if; [apply new_Notice_keeps|].
    apply respects_bind; [typeclasses eauto|apply modal_close_keeps|].
    intros _. exact Hu. }
  split.
  - destruct (Hu w) as (E1 & E2 & E3 & _). auto.
  - destruct (Hs w) as (E1 & E2 & E3 & _). auto.
Qed.

Lemma prefix_empty (s : string) : String.prefix EmptyString s = true.
Proof. destruct s; reflexivity. Qed.

(** X12.  With an empty link name every markdown file of the vault is an
    item: one invalid note anywhere is enough to stop the publish before any
    git call. *)
Theorem empty_link_name_takes_every_file (w : World) :
  symlinkName (settings w) = EmptyString ->
  content_files w = markdownFiles w /\
  (forall f,
     In f (markdownFiles w) ->
     fst (validateFrontmatter (file_path f) w) = Returned false ->
     git_calls (snd (updateBlog w)) = git_calls w).
Proof.
  intros Hname.
  assert (content_files w = markdownFiles w) as Hfiles.
  { unfold content_files. rewrite Hname.
    induction (markdownFiles w) as [|f l IH]; [reflexivity|].
    cbn [List.filter]. rewrite prefix_empty, IH. reflexivity. }
  split; [exact Hfiles|]. intros f Hf Hbad.
  rewrite validateFrontmatter_fst in Hbad.
  assert (file_valid (vault_read w) (file_path f) = false) as Hfv by congruence.
  destruct (git w) as [g|] eqn:Hg.
  - rewrite <- Hfiles in Hf.
    destruct (updateBlog_blocked w g f Hg Hf Hfv) as (c & extra & _ & _ & ->).
    reflexivity.
  - rewrite (updateBlog_unconfigured w Hg). reflexivity.
Qed.

End PublishFlowMore.

(** *** The publish flow on the fixtures, continued *)

Lemma publish_goes_through_witness :
  git_calls (snd (updateBlog w_ready))
  = [ GitAdd "src/content/blog/*"; GitStatus;
      GitCommit "Update blog - 1/1/2024, 12:00:00 PM" None [("--no-gpg-sign", None)];
      GitPush ] /\
  notices (snd (updateBlog w_ready))
  = [mkNotice "Updating blog..." None; mkNotice "Blog updated successfully" None] /\
  console (snd (updateBlog w_ready)) = [].
Proof.
  apply (publish_goes_through w_ready dirty_git
           (mkStatus ["src/content/blog/hello.md"] [] [])); try reflexivity.
  intros f Hf. vm_compute in Hf. destruct Hf as [<-|[]]. vm_compute. reflexivity.
Defined.

(** The remote is out of reach: the commit is made, the push fails. *)
Lemma vcs_failure_is_reported_witness :
  failed_at 4 "fatal: unable to access the remote" w_offline
            (snd (updateBlog w_offline)).
Proof.
  assert (forall f, In f (content_files w_offline) ->
                    fst (validateFrontmatter (file_path f) w_offline) = Returned true)
    as Hall.
  { intros f Hf. vm_compute in Hf. destruct Hf as [<-|[]]. vm_compute. reflexivity. }
  destruct (vcs_failure_is_reported w_offline offline_git eq_refl Hall)
    as (_ & _ & _ & Hpush).
  apply (Hpush _ (mkStatus ["src/content/blog/hello.md"] [] [])); reflexivity.
Defined.

Lemma validation_stops_at_first_failure_witness :
  validate_files [hello_md; broken_md; draft_md] w_with_broken
  = validate_files [hello_md; broken_md] w_with_broken.
Proof.
  apply (validation_stops_at_first_failure [hello_md] [draft_md] broken_md
           w_with_broken).
  - intros f Hf. destruct Hf as [<-|[]]. vm_compute. reflexivity.
  - vm_compute. reflexivity.
Defined.

Lemma unreadable_item_blocks_without_detail_witness :
  updateBlog w_with_unreadable =
  (Returned tt,
   notify "Validation failed for gone.md"
     (notify "Updating blog..." w_with_unreadable)).
Proof.
  apply (unreadable_item_blocks_without_detail w_with_unreadable dirty_git
           [hello_md] [draft_md] gone_md "ENOENT: no such file or directory").
  - reflexivity.
  - vm_compute. reflexivity.
  - intros f Hf. destruct Hf as [<-|[]]. vm_compute. reflexivity.
  - vm_compute. reflexivity.
Defined.

(** The note outside the blog has no front matter and stops the publish. *)
Lemma empty_link_name_takes_every_file_witness :
  content_files w_nameless = [note_md; hello_md] /\
  git_calls (snd (updateBlog w_nameless)) = [].
Proof.
  destruct (empty_link_name_takes_every_file w_nameless eq_refl) as [Hfiles Hblock].
  split; [exact Hfiles|].
  apply (Hblock note_md).
  - vm_compute. auto.
  - vm_compute. reflexivity.
Defined.

(** ** The modal *)

Section ModalMore.
Context `{Host}.

(** X13.  While the configured password is empty nothing in the modal
    starts a publish: a key press leaves the world as it is or shows
    "Incorrect password", the Update button shows "Enter password" or
    "Incorrect password", whatever has been typed. *)
Theorem empty_password_locks_publish (w : World) (key field : string) :
  password (settings w) = EmptyString ->
  (on_keypress key field w = (Returned tt, w) \/
   on_keypress key field w = (Returned tt, notify "Incorrect password" w)) /\
  (on_update_click field w = (Returned tt, notify "Enter password" w) \/
   on_update_click field w = (Returned tt, notify "Incorrect password" w)).
Proof.
  intros Hp.
  assert (forall f, f <> EmptyString ->
                    submit f w = (Returned tt, notify "Incorrect password" w))
    as Hwrong.
  { intros f Hf. unfold submit. apply String.eqb_neq in Hf. rewrite Hf. run.
    rewrite Hp, Hf. reflexivity. }
  split.
  - unfold on_keypress. destruct (String.eqb key "Enter"); [|left; reflexivity].
    destruct (String.eqb_spec field EmptyString) as [->|Hf]; cbn [andb negb];
      [left; reflexivity|right; auto].
  - unfold on_update_click.
    destruct (String.eqb_spec field EmptyString) as [->|Hf];
      [left; reflexivity|right; auto].
Qed.

End ModalMore.

Lemma empty_password_locks_publish_witness :
  on_keypress "Enter" EmptyString (host p_fresh) = (Returned tt, host p_fresh) /\
  on_update_click "guess" (host p_fresh)
  = (Returned tt, notify "Incorrect password" (host p_fresh)).
Proof.
  destruct (empty_password_locks_publish (host p_fresh) "Enter" EmptyString eq_refl)
    as [[Hkey|Hkey] _].
  2:{ apply (f_equal (fun r => notices (snd r))) in Hkey. vm_compute in Hkey.
      discriminate. }
  destruct (empty_password_locks_publish (host p_fresh) "Enter" "guess" eq_refl)
    as [_ [Hclick|Hclick]].
  1:{ apply (f_equal (fun r => notices (snd r))) in Hclick. vm_compute in Hclick.
      discriminate. }
  split; assumption.
Defined.

(** ** The data file *)

Lemma with_settings_same (w : World) : with_settings (settings w) w = w.
Proof. destruct w; reflexivity. Qed.

Lemma settings_object_lookup (s : Settings) :
  settings_object s !! "astroRoot" = Some (astroRoot s) /\
  settings_object s !! "contentFolder" = Some (contentFolder s) /\
  settings_object s !! "symlinkName" = Some (symlinkName s) /\
  settings_object s !! "password" = Some (password s).
Proof.
  unfold settings_object. split; [|split; [|split]].
  - apply lookup_insert_eq.
  - rewrite lookup_insert_ne by discriminate. apply lookup_insert_eq.
  - rewrite !lookup_insert_ne by discriminate. apply lookup_insert_eq.
  - rewrite !lookup_insert_ne by discriminate. apply lookup_insert_eq.
Qed.

Lemma as_Settings_assign (defaults : gmap string string) (s : Settings) :
  as_Settings (Object_assign defaults (settings_object s)) = s.
Proof.
  destruct (settings_object_lookup s) as (E1 & E2 & E3 & E4).
  unfold as_Settings, Object_assign. destruct s as [a c n pw]. cbn in *.
  f_equal; apply lookup_total_correct; apply lookup_union_Some_l; assumption.
Qed.

Lemma assign_lookup_total (defaults data : gmap string string) (k d : string) :
  defaults !! k = Some d ->
  Object_assign defaults data !!! k = default d (data !! k).
Proof.
  intros Hd. unfold Object_assign. apply lookup_total_correct.
  rewrite lookup_union, Hd. destruct (data !! k); reflexivity.
Qed.

(** X14.  [loadSettings] fills in the defaults: with no data file the
    settings are the default ones, and with one each of the four fields is the
    stored one where the file has it and the default one where it has not. *)
Theorem loadSettings_fills_in_defaults (p : Plugin) :
  (data_json p = None ->
   loadSettings p
   = (Returned tt, mkPlugin (with_settings DEFAULT_SETTINGS (host p)) None)) /\
  (forall data,
     data_json p = Some data ->
     loadSettings p =
     (Returned tt,
      mkPlugin
        (with_settings
           {| astroRoot := default (astroRoot DEFAULT_SETTINGS) (data !! "astroRoot");
              contentFolder :=
                default (contentFolder DEFAULT_SETTINGS) (data !! "contentFolder");
              symlinkName :=
                default (symlinkName DEFAULT_SETTINGS) (data !! "symlinkName");
              password := default (password DEFAULT_SETTINGS) (data !! "password") |}
           (host p))
        (Some data))).
Proof.
  split.
  - intros E. unfold loadSettings. rewrite E.
    replace (as_Settings (Object_assign (settings_object DEFAULT_SETTINGS) ∅))
      with DEFAULT_SETTINGS by (vm_compute; reflexivity).
    reflexivity.
  - intros data E. unfold loadSettings. rewrite E.
    destruct (settings_object_lookup DEFAULT_SETTINGS) as (E1 & E2 & E3 & E4).
    unfold as_Settings.
    rewrite (assign_lookup_total _ data _ _ E1), (assign_lookup_total _ data _ _ E2),
      (assign_lookup_total _ data _ _ E3), (assign_lookup_total _ data _ _ E4).
    reflexivity.
Qed.

(** X15.  Saving and loading give the settings back: after [saveSettings]
    the data file is in step with the settings, and [loadSettings] on a plugin
    whose data file is in step changes nothing. *)
Theorem save_load_round_trip (p : Plugin) :
  in_sync (snd (saveSettings p)) /\
  (saveSettings ;; loadSettings)%plugin p = saveSettings p /\
  (in_sync p -> loadSettings p = (Returned tt, p)).
Proof.
  assert (forall q, in_sync q -> loadSettings q = (Returned tt, q)) as Hload.
  { intros [w d] E. unfold in_sync in E. cbn in E. subst d.
    unfold loadSettings. cbn [data_json host].
    rewrite as_Settings_assign, with_settings_same. reflexivity. }
  split; [reflexivity|]. split; [|apply Hload].
  unfold pbind. cbn [saveSettings]. apply Hload. reflexivity.
Qed.

Lemma loadSettings_fills_in_defaults_witness :
  loadSettings p_fresh = (Returned tt, p_fresh) /\
  settings (host (snd (loadSettings p_partial)))
  = {| astroRoot := "/site"; contentFolder := "src/content/blog";
       symlinkName := "Blog"; password := "hunter2" |}.
Proof.
  destruct (loadSettings_fills_in_defaults p_fresh) as [Hnone _].
  destruct (loadSettings_fills_in_defaults p_partial) as [_ Hsome].
  split.
  - rewrite (Hnone eq_refl). reflexivity.
  - rewrite (Hsome _ eq_refl). vm_compute. reflexivity.
Defined.

Lemma save_load_round_trip_witness :
  loadSettings p_old_site = (Returned tt, p_old_site).
Proof.
  destruct (save_load_round_trip p_old_site) as (_ & _ & Hload).
  apply Hload. reflexivity.
Defined.

(** ** The settings tab and the start of the plugin *)

Lemma plugin_eta (p : Plugin) : mkPlugin (host p) (data_json p) = p.
Proof. destruct p; reflexivity. Qed.

Section Lifecycle_facts.
Context `{Host}.

Lemma setupSymlink_returns (w : World) : fst (setupSymlink w) = Returned tt.
Proof. destruct (setupSymlink_cases w) as (w' & -> & _). reflexivity. Qed.

Lemma removeSymlink_returns (w : World) : fst (removeSymlink w) = Returned tt.
Proof.
  destruct (removeSymlink_cases w) as [->|(root & old & _ & _ & ->)]; reflexivity.
Qed.

Lemma setupSymlink_keeps (w : World) :
  settings (snd (setupSymlink w)) = settings w /\
  adapter (snd (setupSymlink w)) = adapter w /\
  git (snd (setupSymlink w)) = git w.
Proof.
  destruct (setupSymlink_outcomes w)
    as [->|[(text & _ & ->)|[->|(root & _ & ->)]]]; cbn; auto.
Qed.

Lemma removeSymlink_keeps (w : World) :
  settings (snd (removeSymlink w)) = settings w /\
  adapter (snd (removeSymlink w)) = adapter w /\
  git (snd (removeSymlink w)) = git w /\
  notices (snd (removeSymlink w)) = notices w.
Proof.
  destruct (removeSymlink_cases w) as [->|(root & old & _ & _ & ->)]; cbn; auto.
Qed.

Lemma removeSymlink_free (w : World) (root : string) :
  adapter w = FileSystemAdapter root ->
  fs w !! linkPath_of root (settings w) = None ->
  removeSymlink w = (Returned tt, w).
Proof.
  intros Ha El. unfold removeSymlink. run. rewrite Ha. run.
  destruct (resolves hop_limit (fs w) (linkPath_of root (settings w))) eqn:R;
    [|reflexivity].
  apply resolves_occupied in R as [n En]. congruence.
Qed.

Lemma removeSymlink_live (w : World) (root old : string) :
  adapter w = FileSystemAdapter root ->
  fs w !! linkPath_of root (settings w) = Some (Symlink old) ->
  resolves hop_limit (fs w) (linkPath_of root (settings w)) = true ->
  removeSymlink w =
  (Returned tt, with_fs (delete (linkPath_of root (settings w)) (fs w)) w).
Proof.
  intros Ha El Rl. unfold removeSymlink. run. rewrite Ha. run. rewrite Rl.
  unfold lstatSync. rewrite El. cbn [stats_of isSymbolicLink].
  unfold fs_unlink. rewrite El. reflexivity.
Qed.

Lemma setupSymlink_elsewhere (w : World) (root p : string) :
  adapter w = FileSystemAdapter root ->
  p <> linkPath_of root (settings w) ->
  fs (snd (setupSymlink w)) !! p = fs w !! p.
Proof.
  intros Ha Hp.
  destruct (setupSymlink_outcomes w)
    as [->|[(text & _ & ->)|[->|(root' & Ha' & ->)]]]; try reflexivity.
  cbn. rewrite Ha in Ha'. injection Ha' as <-.
  rewrite lookup_insert_ne, lookup_delete_ne; congruence.
Qed.

Lemma removeSymlink_elsewhere (w : World) (root p : string) :
  adapter w = FileSystemAdapter root ->
  p <> linkPath_of root (settings w) ->
  fs (snd (removeSymlink w)) !! p = fs w !! p.
Proof.
  intros Ha Hp.
  destruct (removeSymlink_cases w) as [->|(root' & old & Ha' & _ & ->)];
    [reflexivity|].
  cbn. rewrite Ha in Ha'. injection Ha' as <-.
  rewrite lookup_delete_ne; congruence.
Qed.

(** Removing and setting up again, as the Browse button does, returns. *)
Lemma relink_run (p : Plugin) :
  (lift removeSymlink ;; lift setupSymlink)%plugin p =
  (Returned tt,
   mkPlugin (snd (setupSymlink (snd (removeSymlink (host p))))) (data_json p)).
Proof.
  unfold pbind, lift.
  pose proof (removeSymlink_returns (host p)) as Hr.
  destruct (removeSymlink (host p)) as [r w1]. cbn [fst snd] in *. subst r.
  cbn [host data_json].
  pose proof (setupSymlink_returns w1) as Hs.
  destruct (setupSymlink w1) as [r w2]. cbn [fst snd] in *. subst r.
  reflexivity.
Qed.

(** What the Browse button comes to: nothing, the notice that there is no
    picker, or the new root stored and saved and the link made again. *)
Lemma on_browse_cases (dialog : option OpenDialogResult) (p : Plugin) :
  on_browse dialog p = (Returned tt, p) \/
  (dialog = None /\
   on_browse dialog p =
   (Returned tt,
    mkPlugin (notify "File picker unavailable" (host p)) (data_json p))) \/
  (exists d folder,
     dialog = Some d /\ canceled d = false /\
     head (filePaths d) = Some folder /\ folder <> EmptyString /\
     resolves hop_limit (fs (host p)) folder = true /\
     on_browse dialog p =
     (lift removeSymlink ;; lift setupSymlink)%plugin
       (mkPlugin (with_settings (rooted_at folder (settings (host p))) (host p))
                 (Some (settings_object (rooted_at folder (settings (host p))))))).
Proof.
  destruct dialog as [d|].
  2:{ right; left. split; [reflexivity|]. reflexivity. }
  destruct (canceled d) eqn:Hc.
  { left. unfold on_browse, selectFolder, pbind, lift, ret. rewrite Hc.
    cbn. apply f_equal, plugin_eta. }
  destruct (head (filePaths d)) as [folder|] eqn:Hh.
  2:{ left. unfold on_browse, selectFolder, pbind, lift, ret. rewrite Hc, Hh.
      cbn. apply f_equal, plugin_eta. }
  destruct (String.eqb folder EmptyString) eqn:He.
  { left. unfold on_browse, selectFolder, pbind, lift, ret. rewrite Hc, Hh.
    cbn [host data_json]. rewrite He. cbn. apply f_equal, plugin_eta. }
  destruct (resolves hop_limit (fs (host p)) folder) eqn:Rf.
  2:{ left. unfold on_browse, selectFolder, pbind, lift, ret, existsSync, get.
      rewrite Hc, Hh. cbn [host data_json]. rewrite He.
      cbn [host data_json]. rewrite Rf.
      cbn. apply f_equal, plugin_eta. }
  right; right. exists d, folder.
  split; [reflexivity|]. split; [exact Hc|]. split; [exact Hh|].
  split; [apply String.eqb_neq; exact He|]. split; [exact Rf|].
  unfold on_browse, selectFolder. unfold pbind at 1, lift at 1, ret.
  rewrite Hc, Hh. cbn [host data_json]. rewrite He.
  unfold pbind at 1, lift at 1, existsSync, get. cbn [host data_json].
  rewrite Rf. reflexivity.
Qed.

End Lifecycle_facts.

Lemma resolves_absent (hops : nat) (f : gmap string node) (p : string) :
  f !! p = None -> resolves hops f p = false.
Proof. intros E. destruct hops; unfold resolves; fold resolves; rewrite E; auto. Qed.

Section SettingsTab.
Context `{Host}.

Lemma on_browse_proceeds (d : OpenDialogResult) (folder : string) (p : Plugin) :
  canceled d = false ->
  head (filePaths d) = Some folder ->
  folder <> EmptyString ->
  resolves hop_limit (fs (host p)) folder = true ->
  on_browse (Some d) p =
  (Returned tt,
   mkPlugin
     (snd (setupSymlink
             (snd (removeSymlink
                     (with_settings (rooted_at folder (settings (host p)))
                                    (host p))))))
     (Some (settings_object (rooted_at folder (settings (host p)))))).
Proof.
  intros Hc Hh Hne Rf. apply String.eqb_neq in Hne.
  etransitivity;
    [|exact (relink_run
               (mkPlugin
                  (with_settings (rooted_at folder (settings (host p))) (host p))
                  (Some (settings_object (rooted_at folder (settings (host p)))))))].
  unfold on_browse, selectFolder. unfold pbind at 1, lift at 1, ret.
  rewrite Hc, Hh. cbn [host data_json]. rewrite Hne.
  unfold pbind at 1, lift at 1, existsSync, get. cbn [host data_json].
  rewrite Rf. reflexivity.
Qed.

(** X16.  Every change made in the settings tab is saved at once: after any
    of the three text fields the field holds what was typed (trimmed, for the
    two paths) and the data file is in step with the settings; the Browse
    button leaves a data file that was in step in step. *)
Theorem settings_changes_are_saved (trim : string -> string) (value : string)
    (dialog : option OpenDialogResult) (p : Plugin) :
  (in_sync (snd (on_contentFolder_change trim value p)) /\
   contentFolder (settings (host (snd (on_contentFolder_change trim value p))))
   = trim value) /\
  (in_sync (snd (on_symlinkName_change trim value p)) /\
   symlinkName (settings (host (snd (on_symlinkName_change trim value p))))
   = trim value) /\
  (in_sync (snd (on_password_change value p)) /\
   password (settings (host (snd (on_password_change value p)))) = value) /\
  (in_sync p -> in_sync (snd (on_browse dialog p))).
Proof.
  split; [split; reflexivity|]. split; [split; reflexivity|].
  split; [split; reflexivity|].
  intros Hp.
  destruct (on_browse_cases dialog p)
    as [->|[[_ ->]|(d & folder & -> & Hc & Hh & Hne & Rf & _)]].
  - exact Hp.
  - exact Hp.
  - rewrite (on_browse_proceeds d folder p Hc Hh Hne Rf) by assumption.
    unfold in_sync. cbn [snd host data_json].
    destruct (setupSymlink_keeps
                (snd (removeSymlink
                        (with_settings (rooted_at folder (settings (host p)))
                                       (host p))))) as (-> & _).
    destruct (removeSymlink_keeps
                (with_settings (rooted_at folder (settings (host p))) (host p)))
      as (-> & _).
    reflexivity.
Qed.

(** X17.  The text fields change the settings only: the file system is as it
    was, so the link keeps its old name and target.  After a new link name the
    old link is out of reach for good: removing and setting up the link again
    leaves the old link path as it was. *)
Theorem text_fields_leave_the_link_behind (trim : string -> string)
    (value : string) (p : Plugin) (root : string) :
  adapter (host p) = FileSystemAdapter root ->
  path_join root (trim value) <> linkPath_of root (settings (host p)) ->
  fs (host (snd (on_contentFolder_change trim value p))) = fs (host p) /\
  fs (host (snd (on_symlinkName_change trim value p))) = fs (host p) /\
  fs (host (snd ((on_symlinkName_change trim value ;;
                  lift removeSymlink ;; lift setupSymlink)%plugin p)))
    !! linkPath_of root (settings (host p))
  = fs (host p) !! linkPath_of root (settings (host p)).
Proof.
  intros Ha Hne. split; [reflexivity|]. split; [reflexivity|].
  unfold pbind at 1.
  change (on_symlinkName_change trim value p)
    with (Returned tt,
          mkPlugin
            (with_settings
               (mkSettings (astroRoot (settings (host p)))
                           (contentFolder (settings (host p))) (trim value)
                           (password (settings (host p))))
               (host p))
            (Some (settings_object
                     (mkSettings (astroRoot (settings (host p)))
                                 (contentFolder (settings (host p))) (trim value)
                                 (password (settings (host p))))))).
  cbv beta iota. rewrite relink_run. cbn [snd host data_json].
  set (w1 := with_settings _ (host p)).
  assert (adapter w1 = FileSystemAdapter root) as Ha1 by exact Ha.
  assert (linkPath_of root (settings (host p)) <> linkPath_of root (settings w1))
    as Hne1 by (intros E; apply Hne; symmetry; exact E).
  destruct (removeSymlink_keeps w1) as (Es & Ea & _).
  rewrite (setupSymlink_elsewhere (snd (removeSymlink w1)) root).
  - rewrite (removeSymlink_elsewhere w1 root); auto.
  - rewrite Ea. exact Ha1.
  - rewrite Es. exact Hne1.
Qed.

(** X18.  The Browse button never sets up the git client: [this.git] is what
    it was, and where it was unset a publish after choosing the project root
    still ends at "Git not configured". *)
Theorem on_browse_never_sets_git (dialog : option OpenDialogResult) (p : Plugin) :
  git (host (snd (on_browse dialog p))) = git (host p) /\
  (git (host p) = None ->
   updateBlog (host (snd (on_browse dialog p)))
   = (Returned tt, notify "Git not configured" (host (snd (on_browse dialog p))))).
Proof.
  assert (git (host (snd (on_browse dialog p))) = git (host p)) as Hgit.
  { destruct (on_browse_cases dialog p)
      as [->|[[_ ->]|(d & folder & -> & Hc & Hh & Hne & Rf & _)]];
      try reflexivity.
    rewrite (on_browse_proceeds d folder p Hc Hh Hne Rf). cbn [snd host].
    destruct (setupSymlink_keeps
                (snd (removeSymlink
                        (with_settings (rooted_at folder (settings (host p)))
                                       (host p))))) as (_ & _ & ->).
    destruct (removeSymlink_keeps
                (with_settings (rooted_at folder (settings (host p))) (host p)))
      as (_ & _ & -> & _).
    reflexivity. }
  split; [exact Hgit|]. intros Hnone.
  apply updateBlog_unconfigured. rewrite Hgit. exact Hnone.
Qed.

(** X19.  Without a folder the Browse button changes nothing: no picker
    gives the one notice "File picker unavailable"; a cancelled dialog, an
    empty selection, an empty path and a folder that does not exist leave the
    plugin exactly as it was. *)
Theorem on_browse_without_folder (p : Plugin) :
  on_browse None p
  = (Returned tt, mkPlugin (notify "File picker unavailable" (host p)) (data_json p)) /\
  (forall d, canceled d = true -> on_browse (Some d) p = (Returned tt, p)) /\
  (forall d, canceled d = false -> filePaths d = [] ->
             on_browse (Some d) p = (Returned tt, p)) /\
  (forall d rest, canceled d = false -> filePaths d = EmptyString :: rest ->
                  on_browse (Some d) p = (Returned tt, p)) /\
  (forall d folder rest,
     canceled d = false -> filePaths d = folder :: rest ->
     resolves hop_limit (fs (host p)) folder = false ->
     on_browse (Some d) p = (Returned tt, p)).
Proof.
  split; [reflexivity|].
  assert (forall d, on_browse (Some d) p <> (Returned tt, p) ->
                    exists folder,
                      canceled d = false /\ head (filePaths d) = Some folder /\
                      folder <> EmptyString /\
                      resolves hop_limit (fs (host p)) folder = true) as Hgo.
  { intros d Hd.
    destruct (on_browse_cases (Some d) p)
      as [E|[[E _]|(d' & folder & E & Hc & Hh & Hne & Rf & _)]];
      [contradiction|discriminate|].
    injection E as <-. exists folder. auto. }
  assert (forall d, (forall folder,
                       canceled d = false -> head (filePaths d) = Some folder ->
                       folder <> EmptyString ->
                       resolves hop_limit (fs (host p)) folder = true -> False) ->
                    on_browse (Some d) p = (Returned tt, p)) as Hstay.
  { intros d Hno.
    destruct (on_browse_cases (Some d) p)
      as [E|[[E _]|(d' & folder & E & Hc & Hh & Hne & Rf & _)]];
      [exact E|discriminate|].
    injection E as <-. destruct (Hno folder Hc Hh Hne Rf). }
  split; [|split; [|split]].
  - intros d Hc. apply Hstay. intros folder Hc'. congruence.
  - intros d _ Hf. apply Hstay. intros folder _ Hh. rewrite Hf in Hh. discriminate.
  - intros d rest _ Hf. apply Hstay. intros folder _ Hh Hne.
    rewrite Hf in Hh. injection Hh as <-. congruence.
  - intros d folder rest _ Hf Rf. apply Hstay. intros folder' _ Hh _ Rf'.
    rewrite Hf in Hh. injection Hh as <-. congruence.
Qed.

(** X20.  Choosing a project root that has no content folder takes the
    link away: the link that was there and resolved is removed, none is made,
    and "Blog folder not found" is shown; the new root is stored and saved. *)
Theorem on_browse_drops_link_without_content_folder
    (d : OpenDialogResult) (folder root old : string) (p : Plugin) :
  adapter (host p) = FileSystemAdapter root ->
  canceled d = false ->
  head (filePaths d) = Some folder ->
  folder <> EmptyString ->
  resolves hop_limit (fs (host p)) folder = true ->
  fs (host p) !! linkPath_of root (settings (host p)) = Some (Symlink old) ->
  resolves hop_limit (fs (host p)) (linkPath_of root (settings (host p))) = true ->
  fs (host p) !! path_join folder (contentFolder (settings (host p))) = None ->
  on_browse (Some d) p =
  (Returned tt,
   mkPlugin
     (notify "Blog folder not found"
        (with_fs (delete (linkPath_of root (settings (host p))) (fs (host p)))
           (with_settings (rooted_at folder (settings (host p))) (host p))))
     (Some (settings_object (rooted_at folder (settings (host p)))))).
Proof.
  intros Ha Hc Hh Hne Rf El Rl Et.
  rewrite (on_browse_proceeds d folder p Hc Hh Hne Rf).
  set (w1 := with_settings (rooted_at folder (settings (host p))) (host p)).
  rewrite (removeSymlink_live w1 root old Ha El Rl). cbn [snd].
  rewrite (setupSymlink_target_missing _ root); [reflexivity|exact Ha|].
  apply resolves_absent. cbn [fs with_fs].
  apply lookup_delete_None. right. exact Et.
Qed.


(** X22.  With no project root in the loaded settings, [onload] is
    [loadSettings] and no more: the file system, the notices and the git
    client are as they were, and the link manager has not run. *)
Theorem onload_without_root (simpleGit : string -> string + SimpleGit)
    (p : Plugin) :
  astroRoot (settings (host (snd (loadSettings p)))) = EmptyString ->
  onload simpleGit p = loadSettings p /\
  fs (host (snd (onload simpleGit p))) = fs (host p) /\
  notices (host (snd (onload simpleGit p))) = notices (host p) /\
  git (host (snd (onload simpleGit p))) = git (host p).
Proof.
  intros Hroot.
  assert (onload simpleGit p = loadSettings p) as E.
  { unfold onload. unfold pbind at 1. unfold loadSettings in *.
    cbn [snd host settings with_settings] in Hroot. cbv beta iota zeta.
    unfold pbind at 1, lift at 1, get. cbn [host data_json settings with_settings].
    rewrite Hroot. reflexivity. }
  rewrite E. split; [reflexivity|]. split; [reflexivity|]. split; reflexivity.
Qed.

(** X23.  With a project root in the loaded settings, [onload] runs the link
    manager and then makes the git client for that root.  When [simpleGit]
    answers, [this.git] is set; when it throws, [onload] throws with it, after
    the link manager has run, and [this.git] stays unset. *)
Theorem onload_with_root (simpleGit : string -> string + SimpleGit) (p : Plugin) :
  astroRoot (settings (host (snd (loadSettings p)))) <> EmptyString ->
  (forall g,
     simpleGit (astroRoot (settings (host (snd (loadSettings p))))) = inr g ->
     onload simpleGit p =
     (Returned tt,
      mkPlugin
        (with_git (Some g) (snd (setupSymlink (host (snd (loadSettings p))))))
        (data_json p))) /\
  (forall msg,
     simpleGit (astroRoot (settings (host (snd (loadSettings p))))) = inl msg ->
     onload simpleGit p =
     (Thrown (Error msg),
      mkPlugin (snd (setupSymlink (host (snd (loadSettings p))))) (data_json p)) /\
     git (host (snd (onload simpleGit p))) = git (host p)).
Proof.
  intros Hroot. apply String.eqb_neq in Hroot.
  assert (forall r,
            simpleGit (astroRoot (settings (host (snd (loadSettings p))))) = r ->
            onload simpleGit p =
            match r with
            | inr g =>
                (Returned tt,
                 mkPlugin
                   (with_git (Some g)
                      (snd (setupSymlink (host (snd (loadSettings p))))))
                   (data_json p))
            | inl msg =>
                (Thrown (Error msg),
                 mkPlugin (snd (setupSymlink (host (snd (loadSettings p)))))
                          (data_json p))
            end) as Hrun.
  { intros r Hr. unfold onload. unfold pbind at 1.
    unfold loadSettings in *. cbn [snd host] in *.
    cbn [settings with_settings] in Hroot, Hr. cbv beta iota zeta.
    unfold pbind at 1, lift at 1, get. cbn [host data_json settings with_settings].
    rewrite Hroot. unfold pbind at 1, lift at 1. cbn [host data_json].
    pose proof (setupSymlink_returns
                  (with_settings
                     (as_Settings
                        (Object_assign (settings_object DEFAULT_SETTINGS)
                           match data_json p with
                           | Some data => data
                           | None => ∅
                           end)) (host p))) as Hs.
    destruct (setupSymlink _) as [o w2]. cbn [fst snd] in *. subst o.
    unfold pbind, lift, answer. cbn [host data_json]. rewrite Hr.
    destruct r; reflexivity. }
  split.
  - intros g Hg. apply (Hrun _ Hg).
  - intros msg Hm. rewrite (Hrun _ Hm). split; [reflexivity|].
    cbn [snd host]. destruct (setupSymlink_keeps (host (snd (loadSettings p))))
      as (_ & _ & ->). reflexivity.
Qed.

End SettingsTab.

(** *** The settings tab and the start of the plugin on the fixtures *)

Lemma settings_changes_are_saved_witness :
  in_sync (snd (on_browse (pick "/site") p_old_site)) /\
  contentFolder
    (settings (host (snd (on_contentFolder_change demo_trim " src/posts " p_old_site))))
  = "src/posts".
Proof.
  destruct (settings_changes_are_saved demo_trim " src/posts " (pick "/site")
              p_old_site) as ((_ & Hfield) & _ & _ & Hbrowse).
  split.
  - apply Hbrowse. reflexivity.
  - rewrite Hfield. vm_compute. reflexivity.
Defined.

Lemma text_fields_leave_the_link_behind_witness :
  fs (host (snd ((on_symlinkName_change demo_trim "  Posts " ;;
                  lift removeSymlink ;; lift setupSymlink)%plugin p_old_site)))
    !! "/vault/Blog"
  = Some (Symlink "/old/src/content/blog").
Proof.
  destruct (text_fields_leave_the_link_behind demo_trim "  Posts " p_old_site
              "/vault" eq_refl) as (_ & _ & Hold).
  - vm_compute. discriminate.
  - etransitivity; [exact Hold|]. vm_compute. reflexivity.
Defined.

Lemma on_browse_never_sets_git_witness :
  updateBlog (host (snd (on_browse (pick "/site") p_old_site)))
  = (Returned tt,
     notify "Git not configured" (host (snd (on_browse (pick "/site") p_old_site)))).
Proof.
  destruct (on_browse_never_sets_git (pick "/site") p_old_site) as [_ Hnone].
  apply Hnone. reflexivity.
Defined.

Lemma on_browse_without_folder_witness :
  on_browse (Some (mkDialogResult true [])) p_old_site = (Returned tt, p_old_site) /\
  on_browse (Some (mkDialogResult false [])) p_old_site = (Returned tt, p_old_site) /\
  on_browse (pick EmptyString) p_old_site = (Returned tt, p_old_site) /\
  on_browse (pick "/nowhere") p_old_site = (Returned tt, p_old_site).
Proof.
  destruct (on_browse_without_folder p_old_site)
    as (_ & Hcancel & Hnone & Hempty & Hmissing).
  split; [|split; [|split]].
  - apply Hcancel. reflexivity.
  - apply Hnone; reflexivity.
  - apply (Hempty _ []); reflexivity.
  - apply (Hmissing _ "/nowhere" []); [reflexivity|reflexivity|].
    vm_compute. reflexivity.
Defined.

Lemma on_browse_drops_link_without_content_folder_witness :
  fs (host (snd (on_browse (pick "/elsewhere") p_old_site))) !! "/vault/Blog" = None /\
  notices (host (snd (on_browse (pick "/elsewhere") p_old_site)))
  = [mkNotice "Blog folder not found" None].
Proof.
  rewrite (on_browse_drops_link_without_content_folder
             (mkDialogResult false ["/elsewhere"]) "/elsewhere" "/vault"
             "/old/src/content/blog" p_old_site).
  - split; vm_compute; reflexivity.
  - reflexivity.
  - reflexivity.
  - reflexivity.
  - discriminate.
  - vm_compute. reflexivity.
  - vm_compute. reflexivity.
  - vm_compute. reflexivity.
  - vm_compute. reflexivity.
Defined.


Lemma onload_without_root_witness :
  onload git_for_site p_fresh = (Returned tt, p_fresh).
Proof.
  destruct (onload_without_root git_for_site p_fresh) as (E & _).
  - vm_compute. reflexivity.
  - rewrite E. vm_compute. reflexivity.
Defined.

Lemma onload_with_root_witness :
  git (host (snd (onload git_for_site p_partial))) = Some clean_git /\
  fst (onload (fun _ => inl "Cannot use simple-git on a directory that does not exist")
         p_partial)
  = Thrown (Error "Cannot use simple-git on a directory that does not exist").
Proof.
  assert (astroRoot (settings (host (snd (loadSettings p_partial)))) <> EmptyString)
    as Hroot by (vm_compute; discriminate).
  destruct (onload_with_root git_for_site p_partial Hroot) as [Hok _].
  destruct (onload_with_root
              (fun _ => inl "Cannot use simple-git on a directory that does not exist")
              p_partial Hroot) as [_ Hfail].
  split.
  - rewrite (Hok clean_git); [reflexivity|]. vm_compute. reflexivity.
  - destruct (Hfail _ eq_refl) as [-> _]. reflexivity.
Defined.
